(** * git_2_markdown: file discovery and Markdown assembly

    A shallow embedding of [modules/file_discovery.py],
    [modules/markdown_generator.py], [modules/text_reader.py] and the
    per-file loop of [modules/converter.py], together with the properties
    of the enumeration order, the exclusion rules and the chunking
    algorithm.

    Conventions.  A Python [str] is a [string]; every character of the
    model stands for one character of the Python string, and [lower] and
    [isalnum] act on the ASCII range.  A [pathlib.Path] below the
    repository root is the list of its parts; [str(path)] joins them with
    the separator "/".  Python sets of strings are [gset string]. *)

From Stdlib Require Import ZArith Lia Ascii String.
From stdpp Require Import base decidable option list sorting gmap strings pretty.

Local Open Scope Z_scope.

(** ** Python string primitives *)

Module PyStr.

(** [str.lower] on one character of the ASCII range; a character outside
    it is left as it is, so the model speaks for the code on text whose
    cased letters are ASCII. *)
Definition lower_char (c : ascii) : ascii :=
  let n := nat_of_ascii c in
  if (65 <=? n)%nat && (n <=? 90)%nat then ascii_of_nat (n + 32) else c.

(** [s.lower()] *)
Fixpoint lower (s : string) : string :=
  match s with
  | EmptyString => EmptyString
  | String c s' => String (lower_char c) (lower s')
  end.

(** [len(s)] *)
Definition len (s : string) : Z := Z.of_nat (String.length s).

(** [s.startswith(p)] *)
Definition startswith (s p : string) : bool := String.prefix p s.

(** [s.endswith(p)] *)
Definition endswith (s p : string) : bool :=
  String.prefix (String.rev p) (String.rev s).

(** [c in s] for a one-character string [c] *)
Fixpoint contains_char (c : ascii) (s : string) : bool :=
  match s with
  | EmptyString => false
  | String a s' => Ascii.eqb a c || contains_char c s'
  end.

(** [s[1:]] *)
Definition drop_first (s : string) : string :=
  match s with
  | EmptyString => EmptyString
  | String _ s' => s'
  end.

(** [s[:-1]] *)
Fixpoint drop_last (s : string) : string :=
  match s with
  | EmptyString => EmptyString
  | String _ EmptyString => EmptyString
  | String c s' => String c (drop_last s')
  end.

(** [s.rfind(c)], with [None] for the result -1 *)
Fixpoint rfind (c : ascii) (s : string) : option nat :=
  match s with
  | EmptyString => None
  | String a s' =>
      match rfind c s' with
      | Some i => Some (S i)
      | None => if Ascii.eqb a c then Some 0%nat else None
      end
  end.

(** [s[i:]] *)
Fixpoint drop (i : nat) (s : string) : string :=
  match i, s with
  | O, _ => s
  | S i', String _ s' => drop i' s'
  | S _, EmptyString => EmptyString
  end.

(** [s[:i]] *)
Fixpoint take (i : nat) (s : string) : string :=
  match i, s with
  | S i', String c s' => String c (take i' s')
  | _, _ => EmptyString
  end.

(** [sep.join(parts)] *)
Definition join (sep : string) (parts : list string) : string :=
  String.concat sep parts.

Definition is_empty (s : string) : bool :=
  match s with EmptyString => true | _ => false end.

(** The newline character, as a string. *)
Definition nl : string := String "010"%char EmptyString.

End PyStr.

(** ** Python's stable sort

    [list.sort] and [sorted] put the elements in ascending order of their
    keys and keep elements with equal keys in their original order.
    [R x y] reads: the key of [x] is less than or equal to the key of
    [y]. *)

Section stable_sort.
Context {A : Type} (R : relation A) `{!RelDecision R}.

(** Put [x], which comes before every element of the sorted [l] in the
    input, at its place: before the first element that is not less. *)
Fixpoint insert_sorted (x : A) (l : list A) : list A :=
  match l with
  | [] => [x]
  | y :: l' => if decide (R x y) then x :: y :: l' else y :: insert_sorted x l'
  end.

Fixpoint stable_sort (l : list A) : list A :=
  match l with
  | [] => []
  | x :: l' => insert_sorted x (stable_sort l')
  end.

End stable_sort.

(** ** pathlib paths, relative to the repository root *)

Definition path := list string.

(** [p.name] *)
Definition path_name (p : path) : string := List.last p EmptyString.

(** [PurePath.suffix] of a final component: the text from the last dot,
    unless that dot is the first or the last character. *)
Definition name_suffix (name : string) : string :=
  match PyStr.rfind "."%char name with
  | Some i =>
      if (0 <? i)%nat && (i <? String.length name - 1)%nat
      then PyStr.drop i name else EmptyString
  | None => EmptyString
  end.

(** [PurePath.stem] of a final component: the name without its suffix. *)
Definition name_stem (name : string) : string :=
  match PyStr.rfind "."%char name with
  | Some i =>
      if (0 <? i)%nat && (i <? String.length name - 1)%nat
      then PyStr.take i name else name
  | None => name
  end.

(** [p.suffix] *)
Definition path_suffix (p : path) : string := name_suffix (path_name p).

(** [str(p.relative_to(root))] *)
Definition path_str (p : path) : string := PyStr.join "/" p.

(** ** The directory tree on disk

    The children of a directory are listed in the order in which
    [Path.iterdir] yields them.  [readable = false] is a directory whose
    listing raises [PermissionError]; [Other] is an entry that is neither
    [is_dir()] nor [is_file()]. *)

Unset Elimination Schemes.
Inductive entry : Type :=
| File (name : string)
| Dir (name : string) (readable : bool) (children : list entry)
| Other (name : string).
Set Elimination Schemes.

Definition entry_name (e : entry) : string :=
  match e with
  | File n => n
  | Dir n _ _ => n
  | Other n => n
  end.

Definition is_dir (e : entry) : bool :=
  match e with Dir _ _ _ => true | _ => false end.

Definition is_file (e : entry) : bool :=
  match e with File _ => true | _ => false end.

(** ** modules/file_discovery.py *)

Module file_discovery.

Definition DEFAULT_TEXT_EXTENSIONS : gset string :=
  list_to_set
    [ ".py"; ".pyw"; ".pyi"; ".js"; ".mjs"; ".cjs"; ".ts"; ".tsx"; ".mts";
      ".jsx"; ".java"; ".c"; ".h"; ".cpp"; ".hpp"; ".cc"; ".hh"; ".cs";
      ".go"; ".rs"; ".rb"; ".php"; ".swift"; ".kt"; ".kts"; ".scala";
      ".r"; ".R"; ".lua"; ".pl"; ".pm"; ".sh"; ".bash"; ".zsh"; ".fish";
      ".ps1"; ".psm1"; ".bat"; ".cmd";
      ".html"; ".htm"; ".xhtml"; ".css"; ".scss"; ".sass"; ".less";
      ".vue"; ".svelte";
      ".json"; ".jsonl"; ".json5"; ".yaml"; ".yml"; ".toml"; ".xml";
      ".xsl"; ".xslt"; ".ini"; ".cfg"; ".conf"; ".env"; ".env.example";
      ".env.local"; ".properties";
      ".md"; ".markdown"; ".mdx"; ".rst"; ".txt"; ".text"; ".adoc";
      ".asciidoc";
      ".dockerfile"; ".makefile"; ".cmake"; ".gradle"; ".tf"; ".tfvars";
      ".sql"; ".graphql"; ".gql"; ".proto"; ".csv"; ".tsv"; ".gitignore";
      ".gitattributes"; ".editorconfig"; ".prettierrc"; ".eslintrc" ]%string.

Definition DEFAULT_INCLUDE_FILENAMES : gset string :=
  list_to_set
    [ "Dockerfile"; "Makefile"; "Jenkinsfile"; "Vagrantfile"; "Procfile";
      "Gemfile"; "Rakefile"; "LICENSE"; "CHANGELOG"; "CONTRIBUTING";
      "AUTHORS"; "CODEOWNERS"; "README"; ".gitignore"; ".gitattributes";
      ".dockerignore"; ".editorconfig"; ".nvmrc"; ".python-version";
      ".ruby-version"; ".node-version" ]%string.

Definition DEFAULT_EXCLUDE_DIRS : gset string :=
  list_to_set
    [ ".git"; ".svn"; ".hg"; ".bzr"; "__pycache__"; ".pytest_cache";
      ".mypy_cache"; ".tox"; ".nox"; ".eggs"; "*.egg-info"; ".venv";
      "venv"; "env"; ".env"; "node_modules"; "bower_components"; ".next";
      ".nuxt"; "dist"; "build"; "target"; ".idea"; ".vscode"; ".vs";
      "*.xcodeproj"; "*.xcworkspace"; ".gradle"; ".cache";
      ".parcel-cache"; "coverage"; ".nyc_output"; "htmlcov" ]%string.

(** The attributes of a [FileDiscovery] object that the walk reads. *)
Record FileDiscovery : Type := mkFileDiscovery {
  text_extensions : gset string;
  include_filenames : gset string;
  exclude_dirs : gset string;
  include_pdf : bool
}.

(** [supplied or default]: an argument that is [None] or the empty set is
    falsy and gives the default. *)
Definition or_default (supplied : option (gset string)) (default : gset string)
  : gset string :=
  match supplied with
  | Some s => if decide (s = ∅) then default else s
  | None => default
  end.

(** [FileDiscovery.__init__] *)
Definition FileDiscovery_init
    (text_exts incl_names excl_dirs : option (gset string))
    (incl_pdf : bool) (custom_extensions : option (gset string))
  : FileDiscovery :=
  let te := or_default text_exts DEFAULT_TEXT_EXTENSIONS in
  let te := match custom_extensions with
            | Some c => if decide (c = ∅) then te else te ∪ c
            | None => te
            end in
  let te := if incl_pdf then te ∪ {[ ".pdf"%string ]} else te in
  {| text_extensions := te;
     include_filenames := or_default incl_names DEFAULT_INCLUDE_FILENAMES;
     exclude_dirs := or_default excl_dirs DEFAULT_EXCLUDE_DIRS;
     include_pdf := incl_pdf |}.

(** The body of the loop over the patterns in [_should_exclude_dir]. *)
Definition pattern_excludes (dir_name pattern : string) : bool :=
  PyStr.contains_char "*"%char pattern &&
  ((PyStr.startswith pattern "*"
      && PyStr.endswith dir_name (PyStr.drop_first pattern))
   || (PyStr.endswith pattern "*"
      && PyStr.startswith dir_name (PyStr.drop_last pattern))).

(** [FileDiscovery._should_exclude_dir] *)
Definition should_exclude_dir (fd : FileDiscovery) (dir_name : string) : bool :=
  bool_decide (dir_name ∈ exclude_dirs fd)
  || existsb (pattern_excludes dir_name) (elements (exclude_dirs fd)).

(** [FileDiscovery._is_text_file] *)
Definition is_text_file (fd : FileDiscovery) (p : path) : bool :=
  let suffix := PyStr.lower (path_suffix p) in
  bool_decide (path_name p ∈ include_filenames fd)
  || bool_decide (suffix ∈ text_extensions fd)
  || (PyStr.is_empty suffix && bool_decide (path_name p ∈ include_filenames fd)).

(** [FileDiscovery._is_pdf_file] *)
Definition is_pdf_file (p : path) : bool :=
  String.eqb (PyStr.lower (path_suffix p)) ".pdf".

(** [FileDiscovery._walk_directory], one entry of the listing at a time:
    the files yielded for the entry [e] of the directory [dir]. *)
Fixpoint walk_entry (fd : FileDiscovery) (dir : path) (e : entry) : list path :=
  match e with
  | File n => [dir ++ [n]]
  | Dir n readable children =>
      if should_exclude_dir fd n then []
      else if readable
           then flat_map (walk_entry fd (dir ++ [n])) children
           else []
  | Other _ => []
  end.

(** [FileDiscovery._walk_directory] on the root: the listing of the root
    is walked whatever the root is called.  The root is a directory
    ([GitHandler] hands over nothing else); on any other root [iterdir]
    raises an error that nothing catches, and the model yields no file. *)
Definition walk_directory (fd : FileDiscovery) (root : entry) : list path :=
  match root with
  | Dir _ true children => flat_map (walk_entry fd []) children
  | _ => []
  end.

(** The test that sends a path to the README branch of [discover_files]. *)
Definition is_root_readme (p : path) : bool :=
  PyStr.startswith (PyStr.lower (path_name p)) "readme"
  && (length p =? 1)%nat.

(** One iteration of the loop of [discover_files] over the walk; the state
    is the pair of [files] and [readme_file]. *)
Definition discover_step (fd : FileDiscovery)
    (st : list path * option path) (file_path : path)
  : list path * option path :=
  let '(files, readme_file) := st in
  if is_root_readme file_path then
    if match readme_file with None => true | Some _ => false end
       || String.eqb (PyStr.lower (path_name file_path)) "readme.md"
    then (files, Some file_path)
    else (files ++ [file_path], readme_file)
  else if is_text_file fd file_path then (files ++ [file_path], readme_file)
  else (files, readme_file).

Definition discover_loop (fd : FileDiscovery) (root : entry)
  : list path * option path :=
  fold_left (discover_step fd) (walk_directory fd root) ([], None).

(** The sort key [str(p.relative_to(root)).lower()] and its order. *)
Definition sort_key (p : path) : string := PyStr.lower (path_str p).

Definition key_le (a b : path) : Prop := String.le (sort_key a) (sort_key b).

Global Instance key_le_dec : RelDecision key_le.
Proof. intros a b. unfold key_le. apply _. Defined.

(** [files.sort(key=...)]: a stable sort in ascending key order. *)
Definition sort_files (files : list path) : list path := stable_sort key_le files.

(** [FileDiscovery.discover_files] *)
Definition discover_files (fd : FileDiscovery) (root : entry) : list path :=
  let '(files, readme_file) := discover_loop fd root in
  let files := sort_files files in
  match readme_file with
  | Some r => r :: files
  | None => files
  end.

(** [FileDiscovery.get_text_files] *)
Definition get_text_files (fd : FileDiscovery) (root : entry) : list path :=
  filter (fun f => is_pdf_file f = false) (discover_files fd root).

(** [FileDiscovery.get_pdf_files] *)
Definition get_pdf_files (fd : FileDiscovery) (root : entry) : list path :=
  if negb (include_pdf fd) then []
  else filter (fun f => is_pdf_file f = true) (discover_files fd root).

(** The value of [readme_file] when the loop of [discover_files] ends. *)
Definition promoted_readme (fd : FileDiscovery) (root : entry) : option path :=
  (discover_loop fd root).2.

(** [FileDiscovery._build_tree].

    The four box-drawing characters of the connectors are single
    characters of the model's 8-bit alphabet (codes 192, 195, 196, 179),
    so that one character of a rendered line is one character here. *)
Definition box_corner : ascii := ascii_of_nat 192.
Definition box_tee : ascii := ascii_of_nat 195.
Definition box_dash : ascii := ascii_of_nat 196.
Definition box_bar : ascii := ascii_of_nat 179.

Definition connector_last : string :=
  String box_corner (String box_dash (String box_dash " ")).
Definition connector_mid : string :=
  String box_tee (String box_dash (String box_dash " ")).
Definition extension_last : string := "    ".
Definition extension_mid : string := String box_bar "   ".

(** The sort key [(not e.is_dir(), e.name.lower())] and the order of
    Python tuples on it ([False < True]). *)
Definition tree_key (e : entry) : bool * string :=
  (negb (is_dir e), PyStr.lower (entry_name e)).

Definition tree_key_le (k1 k2 : bool * string) : Prop :=
  match k1.1, k2.1 with
  | false, true => True
  | true, false => False
  | _, _ => String.le k1.2 k2.2
  end.

Global Instance tree_key_le_dec : RelDecision tree_key_le.
Proof.
  intros [[] s1] [[] s2]; unfold tree_key_le; simpl; apply _.
Defined.

Section build_tree.
Context (fd : FileDiscovery) (max_depth : option Z).

(** [max_depth is not None and current_depth >= max_depth] *)
Definition depth_reached (current_depth : Z) : bool :=
  match max_depth with
  | Some m => m <=? current_depth
  | None => false
  end.

(** The test under which a non-directory entry gets a line. *)
Definition shown_file (p : path) : bool :=
  is_text_file fd p || (include_pdf fd && is_pdf_file p).

(** A line of the tree, kept with the path and the kind of the entry it
    renders; [generate_tree] joins the [row_line]s. *)
Record tree_row : Type := mkTreeRow {
  row_path : path;
  row_is_dir : bool;
  row_line : string
}.

(** An entry of a listing, with the recursive call that renders what is
    below it (a function of the prefix and the depth). *)
Definition listed : Type := entry * (string -> Z -> list tree_row).

Definition listed_le (a b : listed) : Prop :=
  tree_key_le (tree_key a.1) (tree_key b.1).

Global Instance listed_le_dec : RelDecision listed_le.
Proof. intros a b. unfold listed_le. apply _. Defined.

(** [sorted(directory.iterdir(), key=...)] followed by the filter that
    drops the excluded directories. *)
Definition tree_entries (listing : list listed) : list listed :=
  filter (fun a => negb (is_dir a.1 && should_exclude_dir fd (entry_name a.1)) = true)
         (stable_sort listed_le listing).

(** The body of the [for i, entry in enumerate(entries)] loop: the lines
    appended for the entry [a] at the index [i] of [n] entries. *)
Definition tree_rows_of (dir : path) (prefix : string) (current_depth : Z)
    (n : nat) (i : nat) (a : listed) : list tree_row :=
  let is_last := (i =? n - 1)%nat in
  let connector := if is_last then connector_last else connector_mid in
  let p := dir ++ [entry_name a.1] in
  if is_dir a.1 then
    mkTreeRow p true (prefix +:+ connector +:+ entry_name a.1 +:+ "/")
      :: a.2 (prefix +:+ (if is_last then extension_last else extension_mid))
             (current_depth + 1)
  else if shown_file p
       then [mkTreeRow p false (prefix +:+ connector +:+ entry_name a.1)]
       else [].

(** The lines that [_build_tree(directory, prefix, lines, current_depth,
    max_depth)] appends, for the directory [e] at the path [dir]. *)
Fixpoint build_tree (e : entry) (dir : path) (prefix : string)
    (current_depth : Z) {struct e} : list tree_row :=
  match e with
  | Dir _ readable children =>
      if depth_reached current_depth then []
      else if negb readable then []
      else
        let entries :=
          tree_entries
            (map (fun c => (c, build_tree c (dir ++ [entry_name c]))) children) in
        concat (imap (tree_rows_of dir prefix current_depth (length entries))
                     entries)
  | _ => []
  end.

(** [FileDiscovery.generate_tree] *)
Definition generate_tree (root : entry) : string :=
  PyStr.join PyStr.nl
    ((entry_name root +:+ "/") :: map row_line (build_tree root [] "" 0)).

End build_tree.

End file_discovery.

(** ** modules/markdown_generator.py *)

Module markdown_generator.

(** The separators ["\n"] and ["\n\n"]. *)
Definition nl : string := PyStr.nl.
Definition nlnl : string := nl +:+ nl.

(** [FileContent] *)
Record FileContent : Type := mkFileContent {
  path_ : path;
  relative_path : string;
  content : string;
  language : string;
  is_pdf : bool
}.

(** [MarkdownGenerator]: the constructor arguments, [_files] and [_tree]. *)
Record MarkdownGenerator : Type := mkMarkdownGenerator {
  repo_name : string;
  include_tree : bool;
  include_toc : bool;
  max_tree_depth : option Z;
  _files : list FileContent;
  _tree : string
}.

(** [set_tree] *)
Definition set_tree (g : MarkdownGenerator) (tree : string) : MarkdownGenerator :=
  {| repo_name := repo_name g; include_tree := include_tree g;
     include_toc := include_toc g; max_tree_depth := max_tree_depth g;
     _files := _files g; _tree := tree |}.

(** [add_file] *)
Definition add_file (g : MarkdownGenerator) (fc : FileContent) : MarkdownGenerator :=
  {| repo_name := repo_name g; include_tree := include_tree g;
     include_toc := include_toc g; max_tree_depth := max_tree_depth g;
     _files := _files g ++ [fc]; _tree := _tree g |}.

(** [_generate_title] *)
Definition generate_title (g : MarkdownGenerator) : string :=
  "# Repository: " +:+ repo_name g.

(** [_generate_tree_section] *)
Definition generate_tree_section (g : MarkdownGenerator) : string :=
  PyStr.join nl ["## Repository Structure"; ""; "```"; _tree g; "```"]%string.

(** [c.isalnum()], on the ASCII range: a character outside it counts as
    not alphanumeric, so the anchors of the model are those of the code
    for ASCII text. *)
Definition isalnum (c : ascii) : bool :=
  let n := nat_of_ascii c in
  ((48 <=? n) && (n <=? 57) || (65 <=? n) && (n <=? 90)
   || (97 <=? n) && (n <=? 122))%nat.

(** The generator expression of [_create_anchor]. *)
Fixpoint hyphenate (s : string) : string :=
  match s with
  | EmptyString => EmptyString
  | String c s' =>
      String (if isalnum c || Ascii.eqb c "-" then c else "-"%char) (hyphenate s')
  end.

(** ["--" in s] *)
Fixpoint has_double_hyphen (s : string) : bool :=
  match s with
  | String c1 ((String c2 _) as s') =>
      (Ascii.eqb c1 "-" && Ascii.eqb c2 "-") || has_double_hyphen s'
  | _ => false
  end.

(** [s.replace("--", "-")]: the occurrences are replaced from the left,
    without overlap. *)
Fixpoint replace_double_hyphen (s : string) : string :=
  match s with
  | String c1 s' =>
      match s' with
      | String c2 s'' =>
          if Ascii.eqb c1 "-" && Ascii.eqb c2 "-"
          then String "-" (replace_double_hyphen s'')
          else String c1 (replace_double_hyphen s')
      | EmptyString => s
      end
  | EmptyString => EmptyString
  end.

(** The [while "--" in anchor] loop; every round shortens the string,
    so [n] rounds are enough for a string of length [n]. *)
Fixpoint collapse_hyphens_loop (rounds : nat) (s : string) : string :=
  match rounds with
  | O => s
  | S r =>
      if has_double_hyphen s
      then collapse_hyphens_loop r (replace_double_hyphen s)
      else s
  end.

Definition collapse_hyphens (s : string) : string :=
  collapse_hyphens_loop (String.length s) s.

Fixpoint lstrip_hyphen (s : string) : string :=
  match s with
  | String c s' => if Ascii.eqb c "-" then lstrip_hyphen s' else s
  | EmptyString => EmptyString
  end.

(** [s.strip("-")] *)
Definition strip_hyphen (s : string) : string :=
  String.rev (lstrip_hyphen (String.rev (lstrip_hyphen s))).

(** [_create_anchor] *)
Definition create_anchor (text : string) : string :=
  strip_hyphen (collapse_hyphens (hyphenate (PyStr.lower text))).

(** [_generate_toc] *)
Definition generate_toc (g : MarkdownGenerator) : string :=
  PyStr.join nl
    ("## Table of Contents"%string :: ""%string ::
     map (fun fc => "- [" +:+ relative_path fc +:+ "](#"
                    +:+ create_anchor (relative_path fc) +:+ ")")
         (_files g)).

(** [_format_file] *)
Definition format_file (fc : FileContent) : string :=
  let lang := if PyStr.is_empty (language fc) then ""%string else language fc in
  PyStr.join nl
    ([ "### " +:+ path_name (path_ fc);
       "**Path:** `" +:+ relative_path fc +:+ "`" ]
     ++ (if is_pdf fc then ["**Type:** PDF (extracted text)"%string] else [])
     ++ [ ""%string ]
     ++ (if String.eqb (language fc) "markdown"
         then [ "```" +:+ lang; content fc; "```"%string ]
         else [ "```" +:+ lang; content fc; "```"%string ])).

(** [_generate_files_section] *)
Definition generate_files_section (g : MarkdownGenerator) : string :=
  PyStr.join nl
    ("## File Contents"%string :: ""%string ::
     flat_map (fun fc => [format_file fc; ""%string]) (_files g)).

(** The sections that precede the file contents, as both [generate] and
    [generate_chunked] collect them. *)
Definition header_parts (g : MarkdownGenerator) : list string :=
  [generate_title g]
  ++ (if include_tree g && negb (PyStr.is_empty (_tree g))
      then [generate_tree_section g] else [])
  ++ (if include_toc g then [generate_toc g] else []).

(** [generate] *)
Definition generate (g : MarkdownGenerator) : string :=
  PyStr.join nlnl (header_parts g ++ [generate_files_section g]).

(** [header_with_section] of [generate_chunked] *)
Definition header_with_section (g : MarkdownGenerator) : string :=
  PyStr.join nlnl (header_parts g) +:+ nlnl +:+ "## File Contents" +:+ nl.

(** [continuation_header] of [generate_chunked] *)
Definition continuation_header (g : MarkdownGenerator) : string :=
  "# Repository: " +:+ repo_name g +:+ " (continued)" +:+ nlnl
  +:+ "## File Contents (continued)" +:+ nl.

(** The state of the loop of [generate_chunked]. *)
Record chunk_state : Type := mkChunkState {
  chunks : list string;
  current_chunk_parts : list string;
  current_chunk_size : Z
}.

Definition is_nil {A} (l : list A) : bool :=
  match l with [] => true | _ => false end.

(** One iteration of [for file_content in self._files]. *)
Definition chunk_step (g : MarkdownGenerator) (max_chars : Z)
    (st : chunk_state) (file_content : FileContent) : chunk_state :=
  let file_markdown := format_file file_content +:+ nl in
  let file_size := PyStr.len file_markdown in
  let st :=
    if (max_chars <? current_chunk_size st + file_size)
       && negb (is_nil (current_chunk_parts st))
    then
      let chunks' :=
        if (1 <? length (current_chunk_parts st))%nat
           || (PyStr.len (header_with_section g) <? current_chunk_size st)
        then chunks st ++ [PyStr.join nl (current_chunk_parts st)]
        else chunks st in
      {| chunks := chunks';
         current_chunk_parts := [continuation_header g];
         current_chunk_size := PyStr.len (continuation_header g) |}
    else st in
  {| chunks := chunks st;
     current_chunk_parts := current_chunk_parts st ++ [file_markdown];
     current_chunk_size := current_chunk_size st + file_size |}.

Definition chunk_init (g : MarkdownGenerator) : chunk_state :=
  {| chunks := [];
     current_chunk_parts := [header_with_section g];
     current_chunk_size := PyStr.len (header_with_section g) |}.

Definition chunk_loop (g : MarkdownGenerator) (max_chars : Z) : chunk_state :=
  fold_left (chunk_step g max_chars) (_files g) (chunk_init g).

(** [generate_chunked] *)
Definition generate_chunked (g : MarkdownGenerator) (max_chars : Z) : list string :=
  let st := chunk_loop g max_chars in
  if negb (is_nil (current_chunk_parts st))
  then chunks st ++ [PyStr.join nl (current_chunk_parts st)]
  else chunks st.

(** [get_file_count] *)
Definition get_file_count (g : MarkdownGenerator) : Z :=
  Z.of_nat (length (_files g)).

(** [get_total_size] *)
Definition get_total_size (g : MarkdownGenerator) : Z :=
  fold_right (fun fc acc => PyStr.len (content fc) + acc) 0 (_files g).

(** [parent / f"{stem}_part{i}{suffix}"] for the output path. *)
Definition part_path (output_path : path) (i : nat) : path :=
  removelast output_path
  ++ [ name_stem (path_name output_path) +:+ "_part" +:+ pretty i
       +:+ name_suffix (path_name output_path) ].

(** [generate_to_file]: the file written, with its text. *)
Definition generate_to_file (g : MarkdownGenerator) (output_path : path)
  : list (path * string) :=
  [(output_path, generate g)].

(** [generate_chunked_to_files]: the files written, in the order of the
    writes, each with its text; the returned list is the list of their
    paths. *)
Definition generate_chunked_to_files (g : MarkdownGenerator)
    (output_path : path) (max_chars : Z) : list (path * string) :=
  let chunks := generate_chunked g max_chars in
  if (length chunks =? 1)%nat then
    match chunks with
    | chunk :: _ => [(output_path, chunk)]
    | [] => []
    end
  else imap (fun i chunk => (part_path output_path (S i), chunk)) chunks.

End markdown_generator.

(** ** modules/text_reader.py *)

Module text_reader.

Definition ENCODING_FALLBACKS : list string :=
  [ "utf-8"; "utf-8-sig"; "latin-1"; "cp1252"; "ascii" ]%string.

Definition LANGUAGE_MAP : gmap string string :=
  list_to_map
    [ (".py", "python"); (".pyw", "python"); (".pyi", "python");
      (".js", "javascript"); (".mjs", "javascript"); (".cjs", "javascript");
      (".jsx", "jsx"); (".ts", "typescript"); (".tsx", "tsx");
      (".mts", "typescript");
      (".html", "html"); (".htm", "html"); (".xhtml", "html");
      (".css", "css"); (".scss", "scss"); (".sass", "sass");
      (".less", "less"); (".vue", "vue"); (".svelte", "svelte");
      (".json", "json"); (".jsonl", "json"); (".json5", "json5");
      (".yaml", "yaml"); (".yml", "yaml"); (".toml", "toml");
      (".xml", "xml"); (".xsl", "xml"); (".xslt", "xml");
      (".sh", "bash"); (".bash", "bash"); (".zsh", "zsh");
      (".fish", "fish"); (".ps1", "powershell"); (".psm1", "powershell");
      (".bat", "batch"); (".cmd", "batch");
      (".java", "java"); (".c", "c"); (".h", "c"); (".cpp", "cpp");
      (".hpp", "cpp"); (".cc", "cpp"); (".hh", "cpp"); (".cs", "csharp");
      (".go", "go"); (".rs", "rust"); (".rb", "ruby"); (".php", "php");
      (".swift", "swift"); (".kt", "kotlin"); (".kts", "kotlin");
      (".scala", "scala"); (".r", "r"); (".R", "r"); (".lua", "lua");
      (".pl", "perl"); (".pm", "perl");
      (".md", "markdown"); (".markdown", "markdown"); (".mdx", "mdx");
      (".rst", "rst"); (".txt", "text"); (".text", "text");
      (".adoc", "asciidoc"); (".asciidoc", "asciidoc");
      (".ini", "ini"); (".cfg", "ini"); (".conf", "ini");
      (".env", "dotenv"); (".properties", "properties");
      (".dockerfile", "dockerfile"); (".makefile", "makefile");
      (".cmake", "cmake"); (".gradle", "gradle"); (".tf", "terraform");
      (".tfvars", "terraform");
      (".sql", "sql"); (".graphql", "graphql"); (".gql", "graphql");
      (".proto", "protobuf"); (".csv", "csv"); (".tsv", "tsv");
      (".gitignore", "gitignore") ]%string.

Definition FILENAME_LANGUAGE_MAP : gmap string string :=
  list_to_map
    [ ("Dockerfile", "dockerfile"); ("Makefile", "makefile");
      ("Jenkinsfile", "groovy"); ("Vagrantfile", "ruby");
      ("Procfile", "yaml"); ("Gemfile", "ruby"); ("Rakefile", "ruby");
      (".gitignore", "gitignore"); (".gitattributes", "gitattributes");
      (".dockerignore", "dockerignore");
      (".editorconfig", "editorconfig") ]%string.

(** What reading a file with one encoding does. *)
Inductive read_outcome : Type :=
| ReadOk (text : string)
| ReadUnicodeError
| ReadOSError (message : string).

(** What the file system answers about one path. *)
Record disk_file : Type := mkDiskFile {
  path_exists : bool;
  path_is_file : bool;
  (** [stat().st_size]; [None] when [stat] raises [OSError] *)
  st_size : option Z;
  (** [read_text(encoding=...)] *)
  read_text : string -> read_outcome;
  (** [read_bytes().decode("utf-8", errors="replace")]; [inr] is the
      message of an [OSError] *)
  read_bytes_replace : string + string
}.

(** [TextReader] *)
Record TextReader : Type := mkTextReader {
  max_file_size : option Z
}.

(** The loop over [ENCODING_FALLBACKS] of [read_file], followed by the
    lossy fallback. *)
Fixpoint read_with_encodings (f : disk_file) (encodings : list string) : string :=
  match encodings with
  | encoding :: rest =>
      match read_text f encoding with
      | ReadOk text => text
      | ReadUnicodeError => read_with_encodings f rest
      | ReadOSError e => "[Error reading file: " +:+ e +:+ "]"
      end
  | [] =>
      match read_bytes_replace f with
      | inl text => text
      | inr e => "[Error reading file: " +:+ e +:+ "]"
      end
  end.

(** [TextReader.read_file]; the result [None] is Python's [None]. *)
Definition read_file (r : TextReader) (f : disk_file) : option string :=
  if negb (path_exists f) then None
  else if negb (path_is_file f) then None
  else
    let too_large :=
      match max_file_size r with
      | Some limit =>
          match st_size f with
          | Some size =>
              if limit <? size
              then Some (Some ("[File too large: " +:+ pretty size +:+ " bytes]"))
              else None
          | None => Some None
          end
      | None => None
      end in
    match too_large with
    | Some early => early
    | None => Some (read_with_encodings f ENCODING_FALLBACKS)
    end.

(** [needle in haystack] *)
Definition contains (needle haystack : string) : bool :=
  bool_decide (is_Some (String.index 0 needle haystack)).

(** [TextReader.get_language_identifier]; [mime_type] is the first
    component of [mimetypes.guess_type(str(file_path))]. *)
Definition get_language_identifier (mime_type : option string) (p : path) : string :=
  match FILENAME_LANGUAGE_MAP !! path_name p with
  | Some lang => lang
  | None =>
      match LANGUAGE_MAP !! PyStr.lower (path_suffix p) with
      | Some lang => lang
      | None =>
          match mime_type with
          | Some m =>
              if PyStr.is_empty m then ""%string
              else if contains "python" m then "python"%string
              else if contains "javascript" m then "javascript"%string
              else if contains "json" m then "json"%string
              else if contains "xml" m then "xml"%string
              else if contains "html" m then "html"%string
              else if contains "css" m then "css"%string
              else ""%string
          | None => ""%string
          end
      end
  end.

End text_reader.

(** ** modules/pdf_reader.py *)

Module pdf_reader.

(** What Docling does with one file. *)
Inductive docling_outcome : Type :=
| Exported (markdown : string)
| DoclingImportError
| DoclingException (message : string).

(** The result of [read_pdf]: [None], a text, or a raised
    [PDFReaderError] with its message. *)
Inductive pdf_result : Type :=
| PdfNone
| PdfText (text : string)
| PdfReaderError (message : string).

Definition not_installed : string :=
  "Docling is not installed. Install with: uv pip install 'git-2-markdown[pdf]'".

(** [PDFReader.read_pdf] *)
Definition read_pdf (is_available : bool)
    (docling : docling_outcome) (f : text_reader.disk_file) (p : path)
  : pdf_result :=
  if negb (text_reader.path_exists f) then PdfNone
  else if negb (text_reader.path_is_file f) then PdfNone
  else if negb (String.eqb (PyStr.lower (path_suffix p)) ".pdf") then PdfNone
  else if negb is_available
       then PdfReaderError ("Failed to extract PDF content: " +:+ not_installed)
       else
         match docling with
         | Exported markdown => PdfText markdown
         | DoclingImportError => PdfReaderError not_installed
         | DoclingException e =>
             PdfReaderError ("Failed to extract PDF content: " +:+ e)
         end.

(** [PDFReader.read_pdf_safe] *)
Definition read_pdf_safe (is_available : bool)
    (docling : docling_outcome) (f : text_reader.disk_file) (p : path)
  : string :=
  match read_pdf is_available docling f p with
  | PdfNone => "[Failed to read PDF file]"
  | PdfText text => text
  | PdfReaderError e => "[PDF extraction error: " +:+ e +:+ "]"
  end.

End pdf_reader.

(** ** modules/converter.py *)

Module converter.

(** [ConverterConfig] *)
Record ConverterConfig : Type := mkConverterConfig {
  include_pdf : bool;
  include_tree : bool;
  include_toc : bool;
  max_tree_depth : option Z;
  max_file_size : option Z;
  custom_extensions : option (gset string);
  exclude_dirs : option (gset string);
  split_output : bool;
  max_chars_per_file : Z
}.

(** [ConverterConfig()] with the default value of every argument. *)
Definition ConverterConfig_default : ConverterConfig :=
  {| include_pdf := false; include_tree := true; include_toc := false;
     max_tree_depth := None; max_file_size := None;
     custom_extensions := None; exclude_dirs := None;
     split_output := false; max_chars_per_file := 100000 |}.

(** [GitToMarkdownConverter]: the configuration, the text reader and
    whether a PDF reader was created. *)
Record GitToMarkdownConverter : Type := mkConverter {
  config : ConverterConfig;
  _text_reader : text_reader.TextReader;
  _pdf_reader : bool
}.

(** [GitToMarkdownConverter.__init__] *)
Definition GitToMarkdownConverter_init (cfg : ConverterConfig)
  : GitToMarkdownConverter :=
  {| config := cfg;
     _text_reader := text_reader.mkTextReader (max_file_size cfg);
     _pdf_reader := include_pdf cfg |}.

(** What lies outside the program: the checked-out repository and the
    collaborators that read it. *)
Record world : Type := mkWorld {
  repo_root : entry;
  repo_name : string;
  disk : path -> text_reader.disk_file;
  docling_available : bool;
  docling_convert : path -> pdf_reader.docling_outcome;
  guess_type : string -> option string
}.

(** The [FileDiscovery] that [convert] builds. *)
Definition discovery_of (cfg : ConverterConfig) : file_discovery.FileDiscovery :=
  file_discovery.FileDiscovery_init None None (exclude_dirs cfg)
    (include_pdf cfg) (custom_extensions cfg).

(** The body of [for file_path in files] in [convert]. *)
Definition process_file (c : GitToMarkdownConverter) (w : world)
    (file_path : path) : markdown_generator.FileContent :=
  let relative_path := path_str file_path in
  let is_pdf := String.eqb (PyStr.lower (path_suffix file_path)) ".pdf" in
  let '(content, language) :=
    if is_pdf && _pdf_reader c then
      (pdf_reader.read_pdf_safe (docling_available w)
         (docling_convert w file_path) (disk w file_path) file_path,
       "markdown"%string)
    else
      let content :=
        match text_reader.read_file (_text_reader c) (disk w file_path) with
        | Some text => text
        | None => "[Failed to read file]"%string
        end in
      (content,
       text_reader.get_language_identifier
         (guess_type w (path_str file_path)) file_path) in
  markdown_generator.mkFileContent file_path relative_path content language is_pdf.

(** The generator as it stands when [convert] calls [generate]. *)
Definition generator_of (c : GitToMarkdownConverter) (w : world)
  : markdown_generator.MarkdownGenerator :=
  let discovery := discovery_of (config c) in
  let tree :=
    file_discovery.generate_tree discovery (max_tree_depth (config c))
      (repo_root w) in
  let files := file_discovery.discover_files discovery (repo_root w) in
  fold_left
    (fun g file_path => markdown_generator.add_file g (process_file c w file_path))
    files
    (markdown_generator.set_tree
       (markdown_generator.mkMarkdownGenerator (repo_name w)
          (include_tree (config c)) (include_toc (config c))
          (max_tree_depth (config c)) [] EmptyString)
       tree).

(** [GitToMarkdownConverter.convert]: the returned text. *)
Definition convert (c : GitToMarkdownConverter) (w : world) : string :=
  markdown_generator.generate (generator_of c w).

(** The chunks that [convert] writes when [split_output] is set. *)
Definition convert_chunks (c : GitToMarkdownConverter) (w : world) : list string :=
  markdown_generator.generate_chunked (generator_of c w)
    (max_chars_per_file (config c)).

(** What [convert] writes when an output path is given. *)
Definition convert_writes (c : GitToMarkdownConverter) (w : world)
    (output_path : option path) : list (path * string) :=
  match output_path with
  | Some out =>
      if split_output (config c)
      then markdown_generator.generate_chunked_to_files (generator_of c w) out
             (max_chars_per_file (config c))
      else markdown_generator.generate_to_file (generator_of c w) out
  | None => []
  end.

(** [check_pdf_support]: the converter afterwards (a PDF reader is
    created when there was none) and the answer, which is whether Docling
    is installed. *)
Definition check_pdf_support (c : GitToMarkdownConverter) (docling_installed : bool)
  : GitToMarkdownConverter * bool :=
  ({| config := config c; _text_reader := _text_reader c; _pdf_reader := true |},
   docling_installed).

End converter.

(** ** main.py *)

Module main.

(** The body of the loop that prepares the [--extensions] arguments. *)
Definition with_dot (ext : string) : string :=
  if negb (PyStr.startswith ext ".") then "." +:+ ext else ext.

(** [custom_extensions] as [main] builds it from [parsed_args.extensions]. *)
Definition custom_extensions_of (extensions : option (list string))
  : option (gset string) :=
  match extensions with
  | None | Some [] => None
  | Some exts => Some (list_to_set (map with_dot exts))
  end.

(** [exclude_dirs] as [main] builds it from [parsed_args.exclude_dirs]. *)
Definition exclude_dirs_of (dirs : option (list string)) : option (gset string) :=
  match dirs with
  | None | Some [] => None
  | Some ds => Some (list_to_set ds)
  end.

End main.

Import file_discovery markdown_generator.

(** ** Vocabulary of the statements *)


(** The path goes through a directory that [_should_exclude_dir] rejects. *)
Definition through_excluded (fd : FileDiscovery) (p : path) : bool :=
  existsb (should_exclude_dir fd) (removelast p).

(** No two entries of a listing share a name, at every level. *)
Fixpoint distinct_names (e : entry) : Prop :=
  match e with
  | Dir _ _ children =>
      NoDup (map entry_name children)
      /\ fold_right (fun c acc => distinct_names c /\ acc) True children
  | _ => True
  end.


(** The file is a root-level file named README.md, in any letter case. *)
Definition is_root_readme_md (p : path) : bool :=
  is_root_readme p && String.eqb (PyStr.lower (path_name p)) "readme.md".

(** A file's formatted block with its trailing newline: the
    [file_markdown] of [generate_chunked]. *)
Definition file_block (fc : FileContent) : string := format_file fc +:+ nl.

(** The text that a run of files adds to a document or to a chunk: each
    block, preceded by the newline that joins it to what is before. *)
Definition files_body (fs : list FileContent) : string :=
  fold_right (fun fc acc => nl +:+ file_block fc +:+ acc) EmptyString fs.

(** A chunk seen as its seed (a header) and the files packed into it. *)
Definition chunk_group : Type := string * list FileContent.

Definition render_group (cg : chunk_group) : string := cg.1 +:+ files_body cg.2.

Definition is_header (g : MarkdownGenerator) (h : string) : Prop :=
  h = header_with_section g \/ h = continuation_header g.

(** The sum of the sizes that [generate_chunked] adds up for a run of files. *)
Definition blocks_size (fs : list FileContent) : Z :=
  fold_right (fun fc acc => PyStr.len (file_block fc) + acc) 0 fs.

(** The state of the loop, read as the chunks already closed and the
    files packed into the open one. *)
Definition chunk_state_of (closed : list chunk_group) (h : string)
    (open : list FileContent) (size : Z) : chunk_state :=
  {| chunks := map render_group closed;
     current_chunk_parts := h :: map file_block open;
     current_chunk_size := size |}.

(** The files that the walk yields below the directory [e], whose own
    path is [dir]; [walk_directory] is the case of the root. *)
Definition walk_below (fd : FileDiscovery) (dir : path) (e : entry) : list path :=
  match e with
  | Dir _ true children => flat_map (walk_entry fd dir) children
  | _ => []
  end.

(** What the loop of [generate_chunked] keeps true of the chunks it has
    closed and of the open one: a closed chunk holds a file, and one that
    holds two or more was filled within [max_chars], by the sizes the loop
    adds up; the open chunk without a file is the initial one. *)
Definition chunks_well_packed (g : MarkdownGenerator) (max_chars : Z)
    (closed : list chunk_group) (h : string)
    (open : list FileContent) (size : Z) : Prop :=
  Forall (fun cg => cg.2 <> []
                    /\ ((2 <= length cg.2)%nat ->
                        PyStr.len cg.1 + blocks_size cg.2 <= max_chars)) closed
  /\ size = PyStr.len h + blocks_size open
  /\ ((2 <= length open)%nat -> size <= max_chars)
  /\ (open = [] -> closed = [] /\ h = header_with_section g).

(** Every character of the string passes the test. *)
Fixpoint all_chars (test : ascii -> bool) (s : string) : bool :=
  match s with
  | EmptyString => true
  | String c s' => test c && all_chars test s'
  end.

(** The characters that the generator expression of [_create_anchor]
    lets through: [c.isalnum() or c == "-"]. *)
Definition kept_char (c : ascii) : bool := isalnum c || Ascii.eqb c "-".

(** A kept character that [lower] leaves as it is. *)
Definition settled_char (c : ascii) : bool :=
  kept_char c && Ascii.eqb (PyStr.lower_char c) c.

(** The discovery with one entry less in its set of extensions. *)
Definition without_extension (fd : FileDiscovery) (ext : string) : FileDiscovery :=
  {| text_extensions := text_extensions fd ∖ {[ ext ]};
     include_filenames := include_filenames fd;
     exclude_dirs := exclude_dirs fd;
     include_pdf := include_pdf fd |}.

(** ** Example inputs *)

(** The discovery that [convert] builds from the default configuration. *)
Definition default_discovery : FileDiscovery :=
  converter.discovery_of converter.ConverterConfig_default.

(** A generator for a repository [r] with the tree enabled and one
    file [a] with empty content. *)
Definition one_file_with_tree : MarkdownGenerator :=
  {| repo_name := "r"; include_tree := true; include_toc := false;
     max_tree_depth := None;
     _files := [ mkFileContent ["a"] "a" "" "" false ];
     _tree := "r/" |}.

(** A generator without tree for two files [a] and [b] with empty content. *)
Definition two_files_no_tree : MarkdownGenerator :=
  {| repo_name := "r"; include_tree := false; include_toc := false;
     max_tree_depth := None;
     _files := [ mkFileContent ["a"] "a" "" "" false;
                 mkFileContent ["b"] "b" "" "" false ];
     _tree := EmptyString |}.

(** A world in which every path is a readable file of 1000 bytes whose
    text is [plain text] and from which Docling extracts
    [extracted text]. *)
Definition thousand_byte_files (root : entry) : converter.world :=
  {| converter.repo_root := root;
     converter.repo_name := "repo";
     converter.disk := fun _ =>
       {| text_reader.path_exists := true;
          text_reader.path_is_file := true;
          text_reader.st_size := Some 1000;
          text_reader.read_text := fun _ => text_reader.ReadOk "plain text";
          text_reader.read_bytes_replace := inl "plain text"%string |};
     converter.docling_available := true;
     converter.docling_convert := fun _ => pdf_reader.Exported "extracted text";
     converter.guess_type := fun _ => None |}.

(** A converter with PDF support enabled and a limit of 10 bytes. *)
Definition pdf_converter_limit_10 : converter.GitToMarkdownConverter :=
  converter.GitToMarkdownConverter_init
    {| converter.include_pdf := true; converter.include_tree := true;
       converter.include_toc := false; converter.max_tree_depth := None;
       converter.max_file_size := Some 10;
       converter.custom_extensions := None; converter.exclude_dirs := None;
       converter.split_output := false;
       converter.max_chars_per_file := 100000 |}.

(** The configuration of a run with [--exclude-dirs tests]. *)
Definition config_exclude_tests : converter.ConverterConfig :=
  {| converter.include_pdf := false; converter.include_tree := true;
     converter.include_toc := false; converter.max_tree_depth := None;
     converter.max_file_size := None;
     converter.custom_extensions := None;
     converter.exclude_dirs := Some {[ "tests"%string ]};
     converter.split_output := false;
     converter.max_chars_per_file := 100000 |}.

(** * Properties *)

(** ** The stable sort *)

Section stable_sort_facts.
Context {A : Type} (R : relation A) `{!RelDecision R}.

Lemma insert_sorted_perm (x : A) (l : list A) : insert_sorted R x l ≡ₚ x :: l.
Proof.
  induction l as [|y l IH]; simpl; [done|].
  destruct (decide (R x y)); [done|]. rewrite IH. apply Permutation_swap.
Qed.

Lemma stable_sort_perm (l : list A) : stable_sort R l ≡ₚ l.
Proof.
  induction l as [|x l IH]; simpl; [done|].
  by rewrite insert_sorted_perm, IH.
Qed.



(** Stability: the elements of one key class keep their order. *)
Lemma stable_sort_stable (P : A -> Prop) `{!forall x, Decision (P x)} (l : list A) :
  (forall x y, P x -> P y -> R x y) ->
  filter P (stable_sort R l) = filter P l.
Proof.
  intros Hclass.
  assert (forall x l', filter P (insert_sorted R x l') = filter P (x :: l')) as Hins.
  { intros x l'. induction l' as [|y l' IH]; simpl; [done|].
    destruct (decide (R x y)) as [Hxy|Hxy]; [done|].
    rewrite (filter_cons _ y), IH, !filter_cons.
    destruct (decide (P y)), (decide (P x)); try done.
    destruct Hxy. by apply Hclass. }
  induction l as [|x l IH]; simpl; [done|].
  by rewrite Hins, !filter_cons, IH.
Qed.

End stable_sort_facts.

(** ** Strings *)

Section string_facts.

#[local] Arguments String.append !_ _ /.

Lemma string_app_nil_r (s : string) : s +:+ "" = s.
Proof. induction s as [|c s IH]; simpl; [reflexivity|]. by rewrite IH. Qed.

Lemma string_app_assoc (s1 s2 s3 : string) :
  (s1 +:+ s2) +:+ s3 = s1 +:+ (s2 +:+ s3).
Proof. induction s1 as [|c s1 IH]; simpl; [reflexivity|]. by rewrite IH. Qed.

Lemma string_length_app (s1 s2 : string) :
  String.length (s1 +:+ s2) = (String.length s1 + String.length s2)%nat.
Proof. induction s1 as [|c s1 IH]; simpl; [reflexivity|]. by rewrite IH. Qed.

Lemma len_app (s1 s2 : string) : PyStr.len (s1 +:+ s2) = PyStr.len s1 + PyStr.len s2.
Proof. unfold PyStr.len. rewrite string_length_app. lia. Qed.

Lemma len_nonneg (s : string) : 0 <= PyStr.len s.
Proof. unfold PyStr.len. lia. Qed.

Lemma len_nl : PyStr.len nl = 1.
Proof. reflexivity. Qed.

(** [sep.join] of a non-empty list puts the separator before every
    element but the first. *)
Lemma join_cons (sep h : string) (l : list string) :
  PyStr.join sep (h :: l)
  = h +:+ fold_right (fun x acc => sep +:+ x +:+ acc) EmptyString l.
Proof.
  revert h. induction l as [|x l IH]; intros h.
  - simpl. by rewrite string_app_nil_r.
  - change (PyStr.join sep (h :: x :: l)) with (h +:+ sep +:+ PyStr.join sep (x :: l)).
    by rewrite IH.
Qed.

Lemma join_snoc (sep x : string) (l : list string) :
  l <> [] -> PyStr.join sep (l ++ [x]) = PyStr.join sep l +:+ sep +:+ x.
Proof.
  destruct l as [|h l]; [done|]. intros _.
  rewrite <- app_comm_cons, !join_cons.
  rewrite string_app_assoc. f_equal.
  induction l as [|y l IH]; simpl.
  - by rewrite string_app_nil_r.
  - rewrite IH. by rewrite !string_app_assoc.
Qed.

End string_facts.

(** ** Document assembly *)

Section assembly.
Context (g : MarkdownGenerator).

Lemma files_body_app (fs1 fs2 : list FileContent) :
  files_body (fs1 ++ fs2) = files_body fs1 +:+ files_body fs2.
Proof.
  induction fs1 as [|fc fs1 IH]; simpl; [reflexivity|].
  rewrite IH. by rewrite !string_app_assoc.
Qed.

Lemma join_blocks (h : string) (fs : list FileContent) :
  PyStr.join nl (h :: map file_block fs) = h +:+ files_body fs.
Proof.
  rewrite join_cons. f_equal.
  induction fs as [|fc fs IH]; simpl; [reflexivity|]. by rewrite IH.
Qed.

Lemma files_section_body :
  generate_files_section g = "## File Contents" +:+ nl +:+ files_body (_files g).
Proof.
  unfold generate_files_section. rewrite join_cons. f_equal.
  simpl. f_equal.
  induction (_files g) as [|fc fs IH]; simpl; [reflexivity|].
  rewrite IH. unfold file_block. by rewrite !string_app_assoc.
Qed.

Lemma header_parts_nonempty : header_parts g <> [].
Proof. unfold header_parts. simpl. discriminate. Qed.

(** The unsplit document is the seed of the first chunk followed by
    the body of all the files. *)
Lemma generate_header_body :
  generate g = header_with_section g +:+ files_body (_files g).
Proof.
  unfold generate, header_with_section.
  rewrite join_snoc by apply header_parts_nonempty.
  rewrite files_section_body. by rewrite !string_app_assoc.
Qed.

Lemma blocks_size_nonneg (fs : list FileContent) : 0 <= blocks_size fs.
Proof.
  induction fs as [|fc fs IH]; simpl; [lia|].
  pose proof (len_nonneg (file_block fc)). lia.
Qed.

Lemma len_files_body (fs : list FileContent) :
  PyStr.len (files_body fs) = blocks_size fs + Z.of_nat (length fs).
Proof.
  induction fs as [|fc fs IH]; simpl; [reflexivity|].
  rewrite !len_app, IH, len_nl. lia.
Qed.

(** The length of a chunk: its header, the sizes that the loop adds up
    for its blocks, and one more character for every block (the newline
    that joins it to what is before, which the loop does not count). *)
Lemma len_render_group (cg : chunk_group) :
  PyStr.len (render_group cg)
  = PyStr.len cg.1 + blocks_size cg.2 + Z.of_nat (length cg.2).
Proof. unfold render_group. rewrite len_app, len_files_body. lia. Qed.

End assembly.

(** ** Chunking *)

Section chunking.
Context (g : MarkdownGenerator) (max_chars : Z).

(** The headers that seed the chunks are described by [Hd], a property
    that the continuation header has. *)
Context (Hd : string -> Prop) (Hd_continuation : Hd (continuation_header g)).

Lemma chunk_step_groups closed h open size fc :
  Hd h -> Forall (fun cg => Hd cg.1) closed ->
  exists closed' h' open' size',
    chunk_step g max_chars (chunk_state_of closed h open size) fc
    = chunk_state_of closed' h' open' size'
    /\ Hd h'
    /\ Forall (fun cg => Hd cg.1) closed'
    /\ concat (map snd closed') ++ open' = (concat (map snd closed) ++ open) ++ [fc].
Proof.
  intros Hh Hclosed. unfold chunk_step.
  cbn [current_chunk_parts current_chunk_size chunks chunk_state_of is_nil negb].
  rewrite andb_true_r.
  destruct (max_chars <? size + PyStr.len (format_file fc +:+ nl)) eqn:Hover.
  - destruct ((1 <? length (h :: map file_block open))%nat
              || (PyStr.len (header_with_section g) <? size)) eqn:Hsave.
    + exists (closed ++ [(h, open)]), (continuation_header g), [fc],
        (PyStr.len (continuation_header g) + PyStr.len (format_file fc +:+ nl)).
      split; [|split; [done|split]].
      * unfold chunk_state_of. cbn [chunks current_chunk_parts current_chunk_size].
        rewrite map_app. simpl map. unfold render_group at 2. simpl fst. simpl snd.
        by rewrite join_blocks.
      * apply Forall_app. split; [done|]. by constructor.
      * rewrite map_app, concat_app. simpl. by rewrite app_nil_r.
    + apply orb_false_iff in Hsave as [Hlen _].
      apply Nat.ltb_ge in Hlen. simpl in Hlen.
      destruct open as [|fc' open]; [|simpl in Hlen; lia].
      exists closed, (continuation_header g), [fc],
        (PyStr.len (continuation_header g) + PyStr.len (format_file fc +:+ nl)).
      split; [done|split; [done|split; [done|]]].
      by rewrite app_nil_r.
  - exists closed, h, (open ++ [fc]), (size + PyStr.len (format_file fc +:+ nl)).
    split; [|split; [done|split; [done|]]].
    + unfold chunk_state_of. cbn [chunks current_chunk_parts current_chunk_size].
      by rewrite map_app.
    + by rewrite app_assoc.
Qed.

Lemma chunk_fold_groups_from (fs : list FileContent) closed h open size :
  Hd h -> Forall (fun cg => Hd cg.1) closed ->
  exists closed' h' open' size',
    fold_left (chunk_step g max_chars) fs (chunk_state_of closed h open size)
    = chunk_state_of closed' h' open' size'
    /\ Hd h'
    /\ Forall (fun cg => Hd cg.1) closed'
    /\ concat (map snd closed') ++ open' = (concat (map snd closed) ++ open) ++ fs.
Proof.
  intros Hh Hclosed. induction fs as [|fc fs IH] using rev_ind.
  - exists closed, h, open, size. by rewrite app_nil_r.
  - destruct IH as (closed1 & h1 & open1 & size1 & Hst & Hh1 & Hclosed1 & Hfs).
    rewrite fold_left_app. simpl. rewrite Hst.
    destruct (chunk_step_groups closed1 h1 open1 size1 fc Hh1 Hclosed1)
      as (closed' & h' & open' & size' & Hst' & Hh' & Hclosed' & Hfs').
    exists closed', h', open', size'. rewrite Hfs in Hfs'.
    by rewrite app_assoc.
Qed.

(** What [generate_chunked] returns for a loop that ends in the state
    read as [closed], [h] and [open]. *)
Lemma chunks_of_final_state closed h open size :
  chunk_loop g max_chars = chunk_state_of closed h open size ->
  generate_chunked g max_chars = map render_group (closed ++ [(h, open)]).
Proof.
  intros Hst. unfold generate_chunked. rewrite Hst.
  cbn [chunk_state_of current_chunk_parts chunks is_nil negb].
  rewrite map_app. simpl map. unfold render_group at 2. simpl fst. simpl snd.
  by rewrite join_blocks.
Qed.

(** No overflow: while the sizes added up stay within [max_chars], the
    loop only appends to the open chunk. *)
Lemma chunk_fold_no_overflow (fs : list FileContent) closed parts size :
  parts <> [] ->
  size + blocks_size fs <= max_chars ->
  fold_left (chunk_step g max_chars) fs
    {| chunks := closed; current_chunk_parts := parts;
       current_chunk_size := size |}
  = {| chunks := closed;
       current_chunk_parts := parts ++ map file_block fs;
       current_chunk_size := size + blocks_size fs |}.
Proof.
  revert parts size. induction fs as [|fc fs IH]; intros parts size Hne Hle.
  - simpl. rewrite app_nil_r. f_equal. lia.
  - simpl in Hle. pose proof (blocks_size_nonneg fs) as Hnn.
    cbn [fold_left]. unfold chunk_step at 2.
    cbn [current_chunk_parts current_chunk_size chunks].
    fold (file_block fc).
    assert ((max_chars <? size + PyStr.len (file_block fc)) = false) as ->
      by (apply Z.ltb_ge; lia).
    cbn [andb]. cbn [current_chunk_parts current_chunk_size chunks].
    rewrite IH.
    + rewrite <- app_assoc. simpl. f_equal. lia.
    + by destruct parts.
    + lia.
Qed.

End chunking.

(** C3: [generate_chunked] never splits a file's formatted block.  Every
    chunk it returns is a header (the first chunk's seed or the
    continuation header) followed by the whole blocks of a run of files;
    the runs, taken in chunk order, make up the list of added files, each
    file in exactly one run; and the bodies of the chunks, put end to
    end, are the file-section content that follows the header in the
    unsplit [generate] output. *)
Theorem generate_chunked_keeps_blocks_whole (g : MarkdownGenerator) (max_chars : Z) :
  exists groups : list chunk_group,
    generate_chunked g max_chars = map render_group groups
    /\ Forall (fun cg => is_header g cg.1) groups
    /\ concat (map snd groups) = _files g
    /\ fold_right (fun cg acc => files_body cg.2 +:+ acc) EmptyString groups
       = files_body (_files g)
    /\ generate g = header_with_section g +:+ files_body (_files g).
Proof.
  destruct (chunk_fold_groups_from g max_chars (is_header g) (or_intror eq_refl)
              (_files g) [] (header_with_section g) []
              (PyStr.len (header_with_section g)) (or_introl eq_refl)
              (Forall_nil_2 _))
    as (closed & h & open & size & Hst & Hh & Hclosed & Hfs).
  exists (closed ++ [(h, open)]).
  assert (concat (map snd (closed ++ [(h, open)])) = _files g) as Hcat.
  { rewrite map_app, concat_app. simpl. by rewrite app_nil_r. }
  split; [|split; [|split; [done|split]]].
  - by eapply chunks_of_final_state.
  - apply Forall_app. split; [done|]. by constructor.
  - rewrite <- Hcat. generalize (closed ++ [(h, open)]). intros l.
    induction l as [|[h' fs'] l IH]; simpl; [done|].
    by rewrite files_body_app, IH.
  - apply generate_header_body.
Qed.

(** When the header and the first block together exceed [max_chars],
    the header is dropped: every chunk is seeded with the continuation
    header. *)
Lemma first_overflow_loses_header (g : MarkdownGenerator) (max_chars : Z)
    (fc : FileContent) (fs : list FileContent) :
  _files g = fc :: fs ->
  max_chars < PyStr.len (header_with_section g) + PyStr.len (file_block fc) ->
  exists groups : list chunk_group,
    generate_chunked g max_chars = map render_group groups
    /\ Forall (fun cg => cg.1 = continuation_header g) groups
    /\ concat (map snd groups) = _files g.
Proof.
  intros Hfiles Hover.
  assert (chunk_step g max_chars (chunk_init g) fc
          = chunk_state_of [] (continuation_header g) [fc]
              (PyStr.len (continuation_header g) + PyStr.len (file_block fc)))
    as Hfirst.
  { unfold chunk_step, chunk_init.
    cbn [current_chunk_parts current_chunk_size chunks is_nil negb length].
    fold (file_block fc).
    rewrite (proj2 (Z.ltb_lt _ _) Hover), Z.ltb_irrefl. done. }
  destruct (chunk_fold_groups_from g max_chars
              (fun h => h = continuation_header g) eq_refl fs
              [] (continuation_header g) [fc]
              (PyStr.len (continuation_header g) + PyStr.len (file_block fc))
              eq_refl (Forall_nil_2 _))
    as (closed & h & open & size & Hst & Hh & Hclosed & Hfs).
  exists (closed ++ [(h, open)]). split; [|split].
  - eapply chunks_of_final_state. unfold chunk_loop.
    rewrite Hfiles. cbn [fold_left]. rewrite Hfirst. exact Hst.
  - apply Forall_app. split; [done|]. by constructor.
  - rewrite map_app, concat_app. simpl. rewrite app_nil_r.
    simpl in Hfs. rewrite Hfiles. exact Hfs.
Qed.

(** C6: when [max_chars] is strictly larger than the length of the whole
    document, [generate_chunked] returns the single chunk [generate()]. *)
Theorem generate_chunked_single_chunk (g : MarkdownGenerator) (max_chars : Z) :
  PyStr.len (generate g) < max_chars ->
  generate_chunked g max_chars = [generate g].
Proof.
  intros Hlt.
  rewrite generate_header_body in Hlt |- *.
  rewrite len_app, len_files_body in Hlt.
  unfold generate_chunked, chunk_loop, chunk_init.
  rewrite chunk_fold_no_overflow; [|done|lia].
  cbn [current_chunk_parts chunks is_nil negb app].
  by rewrite join_blocks.
Qed.

(** ** The walk over the directory tree *)

Section entry_induction.
Context (P : entry -> Prop).
Hypothesis HFile : forall n, P (File n).
Hypothesis HDir : forall n readable children,
  Forall P children -> P (Dir n readable children).
Hypothesis HOther : forall n, P (Other n).

Lemma entry_ind (e : entry) : P e.
Proof.
  revert e. fix IH 1. intros [n|n readable children|n].
  - apply HFile.
  - apply HDir. induction children as [|c cs IHcs]; constructor.
    + apply IH.
    + apply IHcs.
  - apply HOther.
Qed.

End entry_induction.

Section walk.
Context (fd : FileDiscovery).

Lemma elem_of_flat_map {A B} (f : A -> list B) (l : list A) (y : B) :
  y ∈ flat_map f l <-> exists x, x ∈ l /\ y ∈ f x.
Proof.
  rewrite !list_elem_of_In, in_flat_map.
  split; intros (x & Hx & Hy); exists x; by rewrite ?list_elem_of_In in *.
Qed.

(** A path yielded below the directory [dir] for the entry [e] starts
    with [dir] and the name of [e], and none of the directories it goes
    through after [dir] is excluded. *)
Lemma walk_entry_path (e : entry) :
  forall dir p, p ∈ walk_entry fd dir e ->
    exists rest, p = dir ++ entry_name e :: rest
      /\ Forall (fun d => should_exclude_dir fd d = false)
                (removelast (entry_name e :: rest)).
Proof.
  induction e as [n|n readable children IH|n] using entry_ind; intros dir p Hp.
  - simpl in Hp. apply list_elem_of_singleton in Hp as ->.
    exists []. split; [done|]. simpl. constructor.
  - simpl in Hp.
    destruct (should_exclude_dir fd n) eqn:Hex; [by apply elem_of_nil in Hp|].
    destruct readable; [|by apply elem_of_nil in Hp].
    apply elem_of_flat_map in Hp as (c & Hc & Hp).
    rewrite Forall_forall in IH.
    destruct (IH c Hc _ _ Hp) as (rest & -> & Hrest).
    exists (entry_name c :: rest). split.
    + by rewrite <- app_assoc.
    + simpl. simpl in Hrest. by constructor.
  - by apply elem_of_nil in Hp.
Qed.

Lemma walk_children_NoDup (dir : path) (cs : list entry) :
  NoDup (map entry_name cs) ->
  Forall (fun c => forall d, NoDup (walk_entry fd d c)) cs ->
  NoDup (flat_map (walk_entry fd dir) cs).
Proof.
  induction cs as [|c cs IH]; intros Hnames Hcs; simpl; [constructor|].
  apply NoDup_cons in Hnames as [Hc Hnames].
  apply Forall_cons in Hcs as [Hwc Hcs].
  apply NoDup_app. split; [apply Hwc|]. split; [|by apply IH].
  intros p Hp1 Hp2.
  apply walk_entry_path in Hp1 as (r1 & -> & _).
  apply elem_of_flat_map in Hp2 as (c' & Hc' & Hp2).
  apply walk_entry_path in Hp2 as (r2 & Heq & _).
  apply app_inv_head in Heq. injection Heq as Hn _.
  apply Hc. rewrite Hn. apply list_elem_of_fmap. by exists c'.
Qed.

Lemma distinct_names_children (cs : list entry) :
  fold_right (fun c acc => distinct_names c /\ acc) True cs
  <-> Forall distinct_names cs.
Proof.
  induction cs as [|c cs IH]; simpl.
  - split; [constructor|done].
  - rewrite Forall_cons. by rewrite IH.
Qed.

Lemma walk_entry_NoDup (e : entry) :
  distinct_names e -> forall dir, NoDup (walk_entry fd dir e).
Proof.
  induction e as [n|n readable children IH|n] using entry_ind; intros Hd dir.
  - simpl. apply NoDup_singleton.
  - simpl. destruct (should_exclude_dir fd n); [constructor|].
    destruct readable; [|constructor].
    destruct Hd as [Hnames Hcs]. apply distinct_names_children in Hcs.
    apply walk_children_NoDup; [done|].
    rewrite Forall_forall in IH, Hcs |- *. intros c Hc d. by apply IH, Hcs.
  - constructor.
Qed.

(** The walk never yields a path through an excluded directory. *)
Lemma walk_directory_not_excluded (root : entry) (p : path) :
  p ∈ walk_directory fd root -> through_excluded fd p = false.
Proof.
  destruct root as [n|n [] children|n]; simpl; try (intros H; by apply elem_of_nil in H).
  intros Hp. apply elem_of_flat_map in Hp as (c & _ & Hp).
  apply walk_entry_path in Hp as (rest & -> & Hrest).
  unfold through_excluded. simpl app.
  apply not_true_is_false. intros Hex.
  apply existsb_exists in Hex as (d & Hd & Hex).
  rewrite Forall_forall in Hrest.
  rewrite (Hrest d) in Hex; [done|]. by apply list_elem_of_In.
Qed.

Lemma walk_directory_NoDup (root : entry) :
  distinct_names root -> NoDup (walk_directory fd root).
Proof.
  destruct root as [n|n [] children|n]; simpl; try (intros; constructor).
  intros [Hnames Hcs]. apply distinct_names_children in Hcs.
  apply walk_children_NoDup; [done|].
  rewrite Forall_forall in Hcs |- *. intros c Hc d. by apply walk_entry_NoDup, Hcs.
Qed.

End walk.

(** ** The loop of [discover_files] *)

#[local] Set Warnings "-clear-no-such-hyp".

Section discover.
Context (fd : FileDiscovery).

(** A property of the walked prefix and the loop state that holds
    initially and is kept by every iteration holds when the loop ends. *)
Lemma discover_fold_inv (Q : list path -> list path * option path -> Prop) :
  Q [] ([], None) ->
  (forall l st p, Q l st -> Q (l ++ [p]) (discover_step fd st p)) ->
  forall l, Q l (fold_left (discover_step fd) l ([], None)).
Proof.
  intros H0 Hstep l. induction l as [|p l IH] using rev_ind; [done|].
  rewrite fold_left_app. simpl. by apply Hstep.
Qed.

Ltac step_cases p st :=
  destruct st as [files [r|]]; unfold discover_step;
  destruct (is_root_readme p) eqn:Hroot;
  [ destruct (String.eqb (PyStr.lower (path_name p)) "readme.md") eqn:Hmd
  | destruct (is_text_file fd p) eqn:Htext
  | destruct (String.eqb (PyStr.lower (path_name p)) "readme.md") eqn:Hmd
  | destruct (is_text_file fd p) eqn:Htext ];
  cbn [orb fst snd].

(** Every collected file was yielded by the walk and went through the
    README branch or passed [_is_text_file]. *)
Lemma discover_fold_files (l : list path) (p : path) :
  p ∈ (fold_left (discover_step fd) l ([], None)).1 ->
  p ∈ l /\ (is_root_readme p = true \/ is_text_file fd p = true).
Proof.
  revert p.
  apply (discover_fold_inv (fun l st => forall p, p ∈ st.1 ->
    p ∈ l /\ (is_root_readme p = true \/ is_text_file fd p = true))).
  - intros p Hp. by apply elem_of_nil in Hp.
  - clear l. intros l st q IH p.
    step_cases q st; intros Hp;
      try (destruct (IH p Hp) as [? ?]; split; [set_solver|done]);
      apply elem_of_app in Hp as [Hp|Hp];
      try (destruct (IH p Hp) as [? ?]; split; [set_solver|done]);
      apply list_elem_of_singleton in Hp as ->; (split; [set_solver|auto]).
Qed.

(** The promoted file was yielded by the walk at the root level and has
    a readme-like name. *)
Lemma discover_fold_readme (l : list path) (r : path) :
  (fold_left (discover_step fd) l ([], None)).2 = Some r ->
  r ∈ l /\ is_root_readme r = true.
Proof.
  revert r.
  apply (discover_fold_inv (fun l st => forall r, st.2 = Some r ->
    r ∈ l /\ is_root_readme r = true)).
  - done.
  - clear l. intros l st q IH r'.
    step_cases q st; intros Hr;
      try (destruct (IH r' Hr) as [? ?]; split; [set_solver|done]);
      injection Hr as <-; (split; [set_solver|done]).
Qed.

(** A file that is not a root-level readme and passes [_is_text_file]
    is collected. *)
Lemma discover_fold_includes (l : list path) (p : path) :
  p ∈ l -> is_root_readme p = false -> is_text_file fd p = true ->
  p ∈ (fold_left (discover_step fd) l ([], None)).1.
Proof.
  revert p.
  apply (discover_fold_inv (fun l st => forall p, p ∈ l ->
    is_root_readme p = false -> is_text_file fd p = true -> p ∈ st.1)).
  - intros p Hp. by apply elem_of_nil in Hp.
  - clear l. intros l st q IH p Hp Hnr Ht.
    apply elem_of_app in Hp as [Hp|Hp].
    + specialize (IH p Hp Hnr Ht). step_cases q st; set_solver.
    + apply list_elem_of_singleton in Hp as ->.
      destruct st as [files r]. unfold discover_step. rewrite Hnr, Ht.
      set_solver.
Qed.

(** When the walk meets no README.md at the root, every root-level
    readme-like file is collected or promoted. *)
Lemma discover_fold_keeps_readmes (l : list path) (p : path) :
  existsb is_root_readme_md l = false ->
  p ∈ l -> is_root_readme p = true ->
  p ∈ (fold_left (discover_step fd) l ([], None)).1
  \/ (fold_left (discover_step fd) l ([], None)).2 = Some p.
Proof.
  revert p.
  apply (discover_fold_inv (fun l st => forall p,
    existsb is_root_readme_md l = false -> p ∈ l -> is_root_readme p = true ->
    p ∈ st.1 \/ st.2 = Some p)).
  - intros p _ Hp. by apply elem_of_nil in Hp.
  - clear l. intros l st q IH p Hmd' Hp Hr.
    rewrite existsb_app in Hmd'. apply orb_false_iff in Hmd' as [Hl Hq].
    simpl in Hq. rewrite orb_false_r in Hq. unfold is_root_readme_md in Hq.
    apply elem_of_app in Hp as [Hp|Hp].
    + specialize (IH p Hl Hp Hr).
      step_cases q st; try (rewrite Hroot, Hmd in Hq; discriminate);
        destruct IH as [IH|IH]; simpl in IH; try discriminate; set_solver.
    + apply list_elem_of_singleton in Hp as ->.
      step_cases q st; try (rewrite Hroot, Hmd in Hq; discriminate);
        try discriminate; set_solver.
Qed.


(** The collected files and the promoted file are distinct paths when
    the walk yields no path twice. *)
Lemma discover_fold_NoDup (l : list path) :
  NoDup l ->
  NoDup ((fold_left (discover_step fd) l ([], None)).1
         ++ option_list (fold_left (discover_step fd) l ([], None)).2).
Proof.
  enough ((forall p, p ∈ (fold_left (discover_step fd) l ([], None)).1
                        ++ option_list (fold_left (discover_step fd) l ([], None)).2
                     -> p ∈ l)
          /\ (NoDup l ->
              NoDup ((fold_left (discover_step fd) l ([], None)).1
                     ++ option_list (fold_left (discover_step fd) l ([], None)).2)))
    as [_ H]; [done|].
  apply (discover_fold_inv (fun l st =>
    (forall p, p ∈ st.1 ++ option_list st.2 -> p ∈ l)
    /\ (NoDup l -> NoDup (st.1 ++ option_list st.2)))).
  - split; [intros p Hp; by apply elem_of_nil in Hp|constructor].
  - clear l. intros l st q [Hsub IH]. split.
    + intros p. specialize (Hsub p).
      step_cases q st; simpl in Hsub |- *; set_solver.
    + intros Hnd. apply NoDup_app in Hnd as (Hl & Hq & _).
      specialize (IH Hl).
      assert (q ∉ st.1 ++ option_list st.2) as Hfresh.
      { intros Hin. apply (Hq q); [by apply Hsub|set_solver]. }
      step_cases q st; simpl in IH, Hfresh |- *;
        rewrite ?app_nil_r in *;
        repeat match goal with
        | H : NoDup (_ ++ _) |- _ => apply NoDup_app in H as (? & ? & ?)
        | |- NoDup (_ ++ _) => apply NoDup_app; split; [|split]
        | |- NoDup [_] => apply NoDup_singleton
        end; try done; set_solver.
Qed.

End discover.

(** ** The order of the enumeration *)

Section order.
Context (fd : FileDiscovery) (root : entry).

#[local] Instance key_le_total : Total key_le.
Proof. intros a b. unfold key_le. apply (total String.le). Qed.

#[local] Instance key_le_trans : Transitive key_le.
Proof. intros a b c. unfold key_le. apply transitivity. Qed.


Lemma sort_files_perm (files : list path) : sort_files files ≡ₚ files.
Proof. apply stable_sort_perm. Qed.

(** Files whose keys coincide stay in the order of the walk. *)
Lemma sort_files_stable (k : string) (files : list path) :
  filter (fun p => sort_key p = k) (sort_files files)
  = filter (fun p => sort_key p = k) files.
Proof.
  apply stable_sort_stable. intros x y Hx Hy.
  unfold key_le. rewrite Hx, Hy. reflexivity.
Qed.



Lemma ltb_irrefl (s : string) : String.ltb s s = false.
Proof.
  unfold String.ltb. pose proof (String.compare_antisym s s) as H.
  by destruct (String.compare s s).
Qed.

Lemma discover_files_unfold :
  discover_files fd root
  = match promoted_readme fd root with
    | Some r => r :: sort_files (discover_loop fd root).1
    | None => sort_files (discover_loop fd root).1
    end.
Proof.
  unfold discover_files, promoted_readme.
  by destruct (discover_loop fd root) as [files [r|]].
Qed.





End order.


(** ** The rendered tree *)

Section tree.
Context (fd : FileDiscovery) (max_depth : option Z).

(** Every line of the tree that renders a non-directory entry renders
    one that passes the test of [_build_tree]. *)
Lemma build_tree_file_rows (e : entry) :
  forall dir prefix depth row,
    row ∈ build_tree fd max_depth e dir prefix depth ->
    row_is_dir row = false ->
    shown_file fd (row_path row) = true.
Proof.
  induction e as [n|n readable children IH|n] using entry_ind;
    intros dir prefix depth row Hrow Hfile;
    [by apply elem_of_nil in Hrow| |by apply elem_of_nil in Hrow].
  simpl in Hrow.
  destruct (depth_reached max_depth depth); [by apply elem_of_nil in Hrow|].
  destruct readable; simpl in Hrow; [|by apply elem_of_nil in Hrow].
  apply list_elem_of_In, in_concat in Hrow as (rows & Hrows & Hrow).
  apply list_elem_of_In, elem_of_lookup_imap in Hrows as (i & a & -> & Ha).
  apply list_elem_of_lookup_2 in Ha. unfold tree_entries in Ha.
  apply list_elem_of_filter in Ha as [_ Ha].
  rewrite stable_sort_perm in Ha.
  apply list_elem_of_fmap in Ha as (c & -> & Hc).
  unfold tree_rows_of in Hrow. cbn [fst snd] in Hrow.
  destruct (is_dir c).
  - apply in_inv in Hrow as [<-|Hrow]; [done|].
    rewrite Forall_forall in IH.
    eapply IH; [done| |done]. apply list_elem_of_In, Hrow.
  - destruct (shown_file fd (dir ++ [entry_name c])) eqn:Hshown; [|done].
    apply in_inv in Hrow as [<-|[]]. done.
Qed.

End tree.

(** ** PDF files *)

Lemma default_filenames_no_suffix (n : string) :
  n ∈ DEFAULT_INCLUDE_FILENAMES -> name_suffix n = EmptyString.
Proof.
  revert n. change (set_Forall (fun n => name_suffix n = EmptyString)
                      DEFAULT_INCLUDE_FILENAMES).
  compute_done.
Qed.

Lemma pdf_not_default_extension : ".pdf"%string ∉ DEFAULT_TEXT_EXTENSIONS.
Proof. compute_done. Qed.

Lemma discover_files_elem (fd : FileDiscovery) (root : entry) (p : path) :
  p ∈ discover_files fd root ->
  p ∈ walk_directory fd root
  /\ (is_root_readme p = true \/ is_text_file fd p = true).
Proof.
  rewrite discover_files_unfold. intros Hp.
  assert (p ∈ (discover_loop fd root).1 \/ promoted_readme fd root = Some p) as [H|H].
  { destruct (promoted_readme fd root) as [r|].
    - apply elem_of_cons in Hp as [->|Hp]; [by right|].
      left. by rewrite sort_files_perm in Hp.
    - left. by rewrite sort_files_perm in Hp. }
  - by apply discover_fold_files in H.
  - apply discover_fold_readme in H as [? ?]. auto.
Qed.

(** Where a PDF can still turn up with PDF support disabled and ".pdf"
    not passed as an extra extension: it has no line in the tree, and it
    is in the list of [discover_files] only when it is a root-level file
    whose name starts with "readme", which the README branch takes
    without the inclusion test. *)
Theorem pdf_excluded_when_disabled
    (cfg : converter.ConverterConfig) (root : entry) (p : path) :
  converter.include_pdf cfg = false ->
  (forall c, converter.custom_extensions cfg = Some c -> ".pdf"%string ∉ c) ->
  is_pdf_file p = true ->
  (forall row,
      row ∈ build_tree (converter.discovery_of cfg)
              (converter.max_tree_depth cfg) root [] "" 0 ->
      row_is_dir row = false -> row_path row <> p)
  /\ (p ∈ discover_files (converter.discovery_of cfg) root ->
      is_root_readme p = true).
Proof.
  intros Hoff Hcustom Hpdf.
  assert (is_text_file (converter.discovery_of cfg) p = false) as Htext.
  { unfold is_pdf_file in Hpdf. apply String.eqb_eq in Hpdf.
    unfold is_text_file, converter.discovery_of, FileDiscovery_init.
    rewrite Hoff, Hpdf. cbn [text_extensions include_filenames or_default PyStr.is_empty].
    rewrite andb_false_l, orb_false_r.
    apply orb_false_iff. split; apply bool_decide_eq_false.
    - intros Hin. apply default_filenames_no_suffix in Hin.
      unfold path_suffix in Hpdf. by rewrite Hin in Hpdf.
    - pose proof pdf_not_default_extension as Hdef.
      destruct (converter.custom_extensions cfg) as [c|] eqn:Hc; [|done].
      destruct (decide (c = ∅)); [done|].
      specialize (Hcustom c eq_refl). set_solver. }
  split.
  - intros row Hrow Hfile Heq.
    apply build_tree_file_rows in Hrow; [|done].
    unfold shown_file in Hrow. rewrite Heq in Hrow. rewrite Htext in Hrow.
    unfold converter.discovery_of, FileDiscovery_init in Hrow.
    cbn [include_pdf] in Hrow. by rewrite Hoff in Hrow.
  - intros Hp. apply discover_files_elem in Hp as [_ [?|?]]; [done|congruence].
Qed.

(** ** The configuration handed to the discovery *)

(** A non-empty set of directories passed with the configuration is the
    whole set of excluded directories of the run. *)
Lemma discovery_of_exclude_dirs (cfg : converter.ConverterConfig) (dirs : gset string) :
  converter.exclude_dirs cfg = Some dirs -> dirs <> ∅ ->
  exclude_dirs (converter.discovery_of cfg) = dirs.
Proof.
  intros Hdirs Hne. unfold converter.discovery_of, FileDiscovery_init.
  rewrite Hdirs. cbn [exclude_dirs or_default]. by destruct (decide (dirs = ∅)).
Qed.

(** Extra extensions are added to the default ones. *)
Lemma discovery_of_custom_extensions (cfg : converter.ConverterConfig) (ext : string) :
  ext ∈ DEFAULT_TEXT_EXTENSIONS ->
  ext ∈ text_extensions (converter.discovery_of cfg).
Proof.
  intros Hin. unfold converter.discovery_of, FileDiscovery_init.
  cbn [text_extensions or_default].
  destruct (converter.custom_extensions cfg) as [c|];
    [destruct (decide (c = ∅))|]; destruct (converter.include_pdf cfg);
    set_solver.
Qed.

(** ** The text reader *)

(** On the text path a file over the limit gets the placeholder. *)
Lemma read_file_too_large (r : text_reader.TextReader)
    (f : text_reader.disk_file) (limit size : Z) :
  text_reader.max_file_size r = Some limit ->
  text_reader.path_exists f = true ->
  text_reader.path_is_file f = true ->
  text_reader.st_size f = Some size ->
  limit < size ->
  text_reader.read_file r f
  = Some ("[File too large: " +:+ pretty size +:+ " bytes]").
Proof.
  intros Hlimit Hex Hfile Hsize Hlt. unfold text_reader.read_file.
  rewrite Hex, Hfile, Hlimit, Hsize. simpl.
  by rewrite (proj2 (Z.ltb_lt limit size) Hlt).
Qed.

(** ** The per-file loop of [convert] *)

Section process_file.
Context (c : converter.GitToMarkdownConverter) (w : converter.world).

(** On the text path the content of a file over the limit is the
    placeholder that states its size. *)
Lemma process_file_text_too_large (p : path) (limit size : Z) :
  is_pdf_file p && converter._pdf_reader c = false ->
  text_reader.max_file_size (converter._text_reader c) = Some limit ->
  text_reader.path_exists (converter.disk w p) = true ->
  text_reader.path_is_file (converter.disk w p) = true ->
  text_reader.st_size (converter.disk w p) = Some size ->
  limit < size ->
  content (converter.process_file c w p)
  = "[File too large: " +:+ pretty size +:+ " bytes]".
Proof.
  intros Hpath Hlimit Hex Hfile Hsize Hlt. unfold converter.process_file.
  unfold is_pdf_file in Hpath. rewrite Hpath.
  by rewrite (read_file_too_large _ _ limit size).
Qed.

(** On the PDF path the content is what the PDF reader returns, whatever
    the size of the file and the limit. *)
Lemma process_file_pdf_path (p : path) :
  is_pdf_file p = true -> converter._pdf_reader c = true ->
  content (converter.process_file c w p)
  = pdf_reader.read_pdf_safe (converter.docling_available w)
      (converter.docling_convert w p) (converter.disk w p) p.
Proof.
  intros Hpdf Hreader. unfold converter.process_file.
  unfold is_pdf_file in Hpdf. by rewrite Hpdf, Hreader.
Qed.

End process_file.

(** ** What the enumeration keeps and what it leaves out *)

Section enumeration.
Context (fd : FileDiscovery) (root : entry).

(** No listed file lies under an excluded directory, at any depth. *)
Lemma discover_files_not_excluded (p : path) :
  p ∈ discover_files fd root -> through_excluded fd p = false.
Proof.
  intros Hp. apply discover_files_elem in Hp as [Hp _].
  by eapply walk_directory_not_excluded.
Qed.

(** The list has no duplicates when no listing has two entries of the
    same name. *)
Lemma discover_files_NoDup :
  distinct_names root -> NoDup (discover_files fd root).
Proof.
  intros Hd. rewrite discover_files_unfold.
  pose proof (discover_fold_NoDup fd _ (walk_directory_NoDup fd root Hd)) as Hnd.
  fold (discover_loop fd root) in Hnd. fold (promoted_readme fd root) in Hnd.
  destruct (promoted_readme fd root) as [r|]; simpl in Hnd.
  - apply NoDup_app in Hnd as (Hfiles & Hr & _).
    apply NoDup_cons. split.
    + rewrite sort_files_perm. intros Hin. apply (Hr r Hin). set_solver.
    + by rewrite sort_files_perm.
  - rewrite app_nil_r in Hnd. by rewrite sort_files_perm.
Qed.

(** Every walked file that passes [_is_text_file] is listed, unless it
    is a root-level readme-like file. *)
Lemma discover_files_includes (p : path) :
  p ∈ walk_directory fd root ->
  is_root_readme p = false -> is_text_file fd p = true ->
  p ∈ discover_files fd root.
Proof.
  intros Hp Hr Ht. rewrite discover_files_unfold.
  pose proof (discover_fold_includes fd _ p Hp Hr Ht) as Hin.
  fold (discover_loop fd root) in Hin.
  destruct (promoted_readme fd root);
    [apply elem_of_cons; right|]; by rewrite sort_files_perm.
Qed.

(** When the root holds no README.md, every root-level readme-like file
    is listed. *)
Lemma discover_files_keeps_readmes (p : path) :
  existsb is_root_readme_md (walk_directory fd root) = false ->
  p ∈ walk_directory fd root -> is_root_readme p = true ->
  p ∈ discover_files fd root.
Proof.
  intros Hmd Hp Hr. rewrite discover_files_unfold.
  destruct (discover_fold_keeps_readmes fd _ p Hmd Hp Hr) as [Hin|Hin].
  - fold (discover_loop fd root) in Hin.
    destruct (promoted_readme fd root);
      [apply elem_of_cons; right|]; by rewrite sort_files_perm.
  - fold (discover_loop fd root) in Hin. fold (promoted_readme fd root) in Hin.
    rewrite Hin. apply elem_of_cons. by left.
Qed.

End enumeration.

(** ** The anchor transform *)

Section anchor.

Lemma replace_double_hyphen_length (n : nat) :
  forall s, (String.length s <= n)%nat ->
    (String.length (replace_double_hyphen s) <= String.length s)%nat
    /\ (has_double_hyphen s = true ->
        (String.length (replace_double_hyphen s) < String.length s)%nat).
Proof.
  induction n as [|n IH]; intros s Hlen.
  - destruct s; simpl in *; [split; [lia|done]|lia].
  - destruct s as [|c1 [|c2 s]]; simpl in *; [split; [lia|done]..|].
    destruct (Ascii.eqb c1 "-" && Ascii.eqb c2 "-") eqn:Hdd; simpl.
    + destruct (IH s ltac:(lia)) as [Hle _]. split; lia.
    + destruct (IH (String c2 s) ltac:(simpl; lia)) as [Hle Hlt].
      simpl in Hle, Hlt. split; [lia|]. intros H. specialize (Hlt H). lia.
Qed.

Lemma collapse_hyphens_loop_done (rounds : nat) :
  forall s, (String.length s <= rounds)%nat ->
    has_double_hyphen (collapse_hyphens_loop rounds s) = false.
Proof.
  induction rounds as [|rounds IH]; intros s Hlen.
  - by destruct s; [|simpl in Hlen; lia].
  - simpl. destruct (has_double_hyphen s) eqn:Hdd; [|done].
    apply IH.
    destruct (replace_double_hyphen_length (String.length s) s ltac:(lia)) as [_ Hlt].
    specialize (Hlt Hdd). lia.
Qed.

(** The rounds allotted to the [while] loop of [_create_anchor] are
    enough: the loop ends with no double hyphen left. *)
Lemma collapse_hyphens_done (s : string) :
  has_double_hyphen (collapse_hyphens s) = false.
Proof. by apply collapse_hyphens_loop_done. Qed.

End anchor.

(** * The claims on concrete inputs *)



(** C2 fails on its own example by the slip in the README branch: when
    the listing of the root yields README.txt before README.md, the
    assignment of README.md to [readme_file] discards README.txt, which
    has a configured extension and lies under no excluded directory. *)
Lemma readme_txt_lost_after_readme_md :
  ["README.txt"] ∈ walk_directory default_discovery
                     (Dir "repo" true [File "README.txt"; File "README.md"])
  /\ is_text_file default_discovery ["README.txt"] = true
  /\ through_excluded default_discovery ["README.txt"] = false
  /\ discover_files default_discovery
       (Dir "repo" true [File "README.txt"; File "README.md"])
     = [["README.md"]]
  /\ discover_files default_discovery
       (Dir "repo" true [File "README.md"; File "README.txt"])
     = [["README.md"]; ["README.txt"]].
Proof. repeat split; try (vm_compute; reflexivity). compute_done. Qed.

(** C4 fails: header and first block together exceed [max_chars], the
    header is dropped without being emitted, and the only chunk starts
    with the continuation header; the tree section is in no chunk. *)
Lemma first_file_overflow_drops_header :
  PyStr.len (header_with_section one_file_with_tree) = 71
  /\ map (fun fc => PyStr.len (file_block fc)) (_files one_file_with_tree) = [30]
  /\ generate_chunked one_file_with_tree 100
     = [continuation_header one_file_with_tree
        +:+ files_body (_files one_file_with_tree)]
  /\ forallb (fun c => negb (PyStr.startswith c
                               (PyStr.join nlnl (header_parts one_file_with_tree))))
       (generate_chunked one_file_with_tree 100) = true.
Proof. repeat split; vm_compute; reflexivity. Qed.

(** C5 fails: the newline that joins the parts of a chunk is not
    counted, and the continuation header is added to a block that fits
    alone; both chunks are longer than [max_chars = 64] although each
    block has 30 characters. *)
Lemma chunks_exceed_max_chars :
  map (fun fc => PyStr.len (file_block fc)) (_files two_files_no_tree) = [30; 30]
  /\ PyStr.len (header_with_section two_files_no_tree) = 34
  /\ map PyStr.len (generate_chunked two_files_no_tree 64) = [65; 89].
Proof. repeat split; vm_compute; reflexivity. Qed.

(** The single-chunk theorem at work: two small files under a limit of
    1000 characters. *)
Lemma generate_chunked_single_chunk_witness :
  PyStr.len (generate two_files_no_tree) < 1000
  /\ generate_chunked two_files_no_tree 1000 = [generate two_files_no_tree].
Proof.
  assert (PyStr.len (generate two_files_no_tree) < 1000) as H
    by (vm_compute; reflexivity).
  split; [exact H|]. exact (generate_chunked_single_chunk _ _ H).
Defined.

(** C7 fails at the root level: with PDF support disabled, a README.pdf
    at the root goes through the README branch of [discover_files], which
    does not apply the inclusion test, and is listed; the tree and
    [get_pdf_files] leave it out, and [convert] reads it as text under
    the PDF flag. *)
Lemma readme_pdf_listed_when_disabled :
  converter.include_pdf converter.ConverterConfig_default = false
  /\ is_pdf_file ["README.pdf"] = true
  /\ is_text_file default_discovery ["README.pdf"] = false
  /\ discover_files default_discovery
       (Dir "repo" true [File "README.pdf"; File "a.py"])
     = [["README.pdf"]; ["a.py"]]
  /\ map (fun row => (row_path row, row_is_dir row))
       (build_tree default_discovery None
          (Dir "repo" true [File "README.pdf"; File "a.py"]) [] "" 0)
     = [(["a.py"], false)]
  /\ get_pdf_files default_discovery
       (Dir "repo" true [File "README.pdf"; File "a.py"])
     = []
  /\ map (fun fc => (relative_path fc, content fc, is_pdf fc))
       (_files (converter.generator_of
                  (converter.GitToMarkdownConverter_init
                     converter.ConverterConfig_default)
                  (thousand_byte_files
                     (Dir "repo" true [File "README.pdf"; File "a.py"]))))
     = [("README.pdf", "plain text", true); ("a.py", "plain text", false)]%string.
Proof. repeat split; vm_compute; reflexivity. Qed.

(** The PDF theorem at work: docs/a.pdf under the default
    configuration. *)
Lemma pdf_excluded_when_disabled_witness :
  (converter.include_pdf converter.ConverterConfig_default = false
   /\ (forall c, converter.custom_extensions converter.ConverterConfig_default = Some c
                 -> ".pdf"%string ∉ c)
   /\ is_pdf_file ["docs"; "a.pdf"] = true)
  /\ ((forall row,
         row ∈ build_tree default_discovery None
                 (Dir "repo" true [Dir "docs" true [File "a.pdf"; File "b.md"]])
                 [] "" 0 ->
         row_is_dir row = false -> row_path row <> ["docs"; "a.pdf"])
      /\ (["docs"; "a.pdf"] ∈ discover_files default_discovery
             (Dir "repo" true [Dir "docs" true [File "a.pdf"; File "b.md"]]) ->
          is_root_readme ["docs"; "a.pdf"] = true)).
Proof.
  assert (forall c, converter.custom_extensions converter.ConverterConfig_default = Some c
                    -> ".pdf"%string ∉ c) as Hc by (intros c H; discriminate H).
  split; [split; [reflexivity|split; [exact Hc|reflexivity]]|].
  exact (pdf_excluded_when_disabled converter.ConverterConfig_default
           (Dir "repo" true [Dir "docs" true [File "a.pdf"; File "b.md"]])
           ["docs"; "a.pdf"] eq_refl Hc eq_refl).
Defined.

(** C8 fails: the directories passed with the configuration replace the
    default set instead of being added to it, so .git and node_modules
    are walked. *)
Lemma user_exclude_dirs_replace_defaults :
  should_exclude_dir (converter.discovery_of config_exclude_tests) "tests" = true
  /\ should_exclude_dir (converter.discovery_of config_exclude_tests) ".git" = false
  /\ should_exclude_dir (converter.discovery_of config_exclude_tests) "node_modules" = false
  /\ should_exclude_dir default_discovery "node_modules" = true
  /\ discover_files (converter.discovery_of config_exclude_tests)
       (Dir "repo" true
          [ Dir "node_modules" true [File "ignored.js"];
            Dir "tests" true [File "t.py"]; File "a.py" ])
     = [["a.py"]; ["node_modules"; "ignored.js"]].
Proof. repeat split; vm_compute; reflexivity. Qed.

(** C9 fails on the PDF path: a PDF of 1000 bytes under a limit of 10
    bytes gets the extracted text, while a text file of the same size
    gets the placeholder. *)
Lemma oversized_pdf_not_replaced :
  content (converter.process_file pdf_converter_limit_10
             (thousand_byte_files (Dir "repo" true [File "big.pdf"; File "big.txt"]))
             ["big.pdf"])
  = "extracted text"%string
  /\ content (converter.process_file pdf_converter_limit_10
                (thousand_byte_files (Dir "repo" true [File "big.pdf"; File "big.txt"]))
                ["big.txt"])
     = "[File too large: 1000 bytes]"%string
  /\ map content
       (_files (converter.generator_of pdf_converter_limit_10
                  (thousand_byte_files (Dir "repo" true [File "big.pdf"; File "big.txt"]))))
     = ["extracted text"; "[File too large: 1000 bytes]"]%string.
Proof. repeat split; vm_compute; reflexivity. Qed.

(** C10 fails by the slip in the README branch: readme.bin is held in
    [readme_file] and discarded when README.md is met after it. *)
Lemma readme_bin_lost_after_readme_md :
  is_root_readme ["readme.bin"] = true
  /\ is_text_file default_discovery ["readme.bin"] = false
  /\ discover_files default_discovery
       (Dir "repo" true [File "readme.bin"; File "README.md"])
     = [["README.md"]]
  /\ discover_files default_discovery
       (Dir "repo" true [File "README.md"; File "readme.bin"])
     = [["README.md"]; ["readme.bin"]]
  /\ discover_files default_discovery
       (Dir "repo" true [File "readme.bin"; File "a.py"])
     = [["readme.bin"]; ["a.py"]].
Proof. repeat split; vm_compute; reflexivity. Qed.

(** * Further properties of the code *)

(** ** Prefixes and suffixes of strings *)

Section affix_facts.

#[local] Arguments String.append !_ _ /.

Lemma startswith_iff (s p : string) :
  PyStr.startswith s p = true <-> exists t, s = p +:+ t.
Proof.
  unfold PyStr.startswith. revert s.
  induction p as [|a p IH]; intros s; simpl.
  - split; [by exists s|by destruct s].
  - destruct s as [|b s]; simpl; [split; [done|by intros [t ?]]|].
    destruct (ascii_dec a b) as [->|Hab].
    + rewrite IH. split; intros [t Ht]; exists t; congruence.
    + split; [done|]. intros [t Ht]. congruence.
Qed.

Lemma rev_app_spec (s1 s2 : string) :
  String.rev_app s1 s2 = String.rev s1 +:+ s2.
Proof.
  unfold String.rev. revert s2.
  induction s1 as [|a s1 IH]; intros s2; simpl; [done|].
  rewrite (IH (String a s2)), (IH (String a "")).
  by rewrite string_app_assoc.
Qed.

Lemma rev_cons (a : ascii) (s : string) :
  String.rev (String a s) = String.rev s +:+ String a "".
Proof. unfold String.rev at 1. simpl. by rewrite rev_app_spec. Qed.

Lemma rev_app (s1 s2 : string) :
  String.rev (s1 +:+ s2) = String.rev s2 +:+ String.rev s1.
Proof.
  induction s1 as [|a s1 IH]; simpl.
  - change (String.rev "") with ""%string. by rewrite string_app_nil_r.
  - by rewrite !rev_cons, IH, string_app_assoc.
Qed.

Lemma rev_involutive (s : string) : String.rev (String.rev s) = s.
Proof.
  induction s as [|a s IH]; [done|].
  rewrite rev_cons, rev_app, IH. done.
Qed.

Lemma endswith_iff (s p : string) :
  PyStr.endswith s p = true <-> exists t, s = t +:+ p.
Proof.
  unfold PyStr.endswith.
  change (String.prefix (String.rev p) (String.rev s))
    with (PyStr.startswith (String.rev s) (String.rev p)).
  rewrite startswith_iff. split.
  - intros [t Ht]. exists (String.rev t).
    apply (f_equal String.rev) in Ht.
    by rewrite rev_involutive, rev_app, rev_involutive in Ht.
  - intros [t ->]. exists (String.rev t). apply rev_app.
Qed.

Lemma drop_last_snoc (s : string) (a : ascii) :
  PyStr.drop_last (s +:+ String a "") = s.
Proof.
  induction s as [|b s IH]; [done|].
  simpl. rewrite IH. by destruct s.
Qed.

Lemma contains_char_app (c : ascii) (s1 s2 : string) :
  PyStr.contains_char c (s1 +:+ s2)
  = PyStr.contains_char c s1 || PyStr.contains_char c s2.
Proof.
  induction s1 as [|a s1 IH]; simpl; [done|].
  by rewrite IH, orb_assoc.
Qed.

End affix_facts.

(** ** Which directories are excluded *)

(** [_should_exclude_dir] holds exactly for the names in the set, the
    names that end with [s] for an entry ["*" + s], and the names that
    start with [s] for an entry [s + "*"]; it knows no other wildcard. *)
Theorem should_exclude_dir_iff (fd : FileDiscovery) (d : string) :
  should_exclude_dir fd d = true
  <-> d ∈ exclude_dirs fd
      \/ (exists s t, ("*" +:+ s) ∈ exclude_dirs fd /\ d = t +:+ s)
      \/ (exists s t, (s +:+ "*") ∈ exclude_dirs fd /\ d = s +:+ t).
Proof.
  unfold should_exclude_dir. rewrite orb_true_iff, bool_decide_eq_true.
  split.
  - intros [Hin|Hpat]; [by left|right].
    apply existsb_exists in Hpat as (pat & Hpat & Hex).
    apply list_elem_of_In, elem_of_elements in Hpat.
    unfold pattern_excludes in Hex.
    apply andb_true_iff in Hex as [_ Hex].
    apply orb_true_iff in Hex as [Hex|Hex];
      apply andb_true_iff in Hex as [Hstar Hd].
    + left. apply startswith_iff in Hstar as [s ->].
      apply endswith_iff in Hd as [t Hd]. by exists s, t.
    + right. apply endswith_iff in Hstar as [s ->].
      rewrite drop_last_snoc in Hd.
      apply startswith_iff in Hd as [t Hd]. by exists s, t.
  - intros [Hin|[(s & t & Hin & ->)|(s & t & Hin & ->)]]; [by left|right..].
    + apply existsb_exists. exists ("*" +:+ s). split.
      { by apply list_elem_of_In, elem_of_elements. }
      unfold pattern_excludes.
      apply andb_true_iff. split; [done|].
      apply orb_true_iff. left. apply andb_true_iff. split.
      * apply startswith_iff. by exists s.
      * apply endswith_iff. by exists t.
    + apply existsb_exists. exists (s +:+ "*"). split.
      { by apply list_elem_of_In, elem_of_elements. }
      unfold pattern_excludes.
      apply andb_true_iff. split.
      { rewrite contains_char_app. apply orb_true_iff. by right. }
      apply orb_true_iff. right. apply andb_true_iff. split.
      * apply endswith_iff. by exists s.
      * rewrite drop_last_snoc. apply startswith_iff. by exists t.
Qed.

(** ** Text files and PDF files *)

(** With PDF support on, [get_text_files] and [get_pdf_files] split the
    list of [discover_files]: every listed file is in one of them, and
    none is in both. *)
Theorem text_and_pdf_files_partition (fd : FileDiscovery) (root : entry) :
  include_pdf fd = true ->
  get_text_files fd root ++ get_pdf_files fd root ≡ₚ discover_files fd root
  /\ (forall p, p ∈ get_text_files fd root -> p ∉ get_pdf_files fd root).
Proof.
  intros Hpdf. unfold get_text_files, get_pdf_files. rewrite Hpdf. simpl.
  split.
  - assert (filter (fun f => is_pdf_file f = false) (discover_files fd root)
            = filter (fun f => ~ is_pdf_file f = true) (discover_files fd root))
      as -> by (apply list_filter_iff; intros p; by destruct (is_pdf_file p)).
    rewrite Permutation_app_comm. apply filter_app_complement.
  - intros p Hp Hq.
    apply list_elem_of_filter in Hp as [Hp _].
    apply list_elem_of_filter in Hq as [Hq _]. congruence.
Qed.

(** ** What the tree shows *)

Section tree_rows.
Context (fd : FileDiscovery) (max_depth : option Z).

(** The entries of a listing that survive the sort and the filter. *)
Lemma tree_entries_elem (listing : list (listed)) (a : listed) :
  a ∈ tree_entries fd listing
  <-> a ∈ listing
      /\ (is_dir a.1 = true -> should_exclude_dir fd (entry_name a.1) = false).
Proof.
  unfold tree_entries. rewrite list_elem_of_filter.
  pose proof (stable_sort_perm listed_le listing) as Hperm.
  split; intros [H1 H2]; split.
  - by rewrite <- Hperm.
  - intros Hd. rewrite Hd in H1. by destruct (should_exclude_dir fd (entry_name a.1)).
  - destruct (is_dir a.1); [|done]. by rewrite H2.
  - by rewrite Hperm.
Qed.

(** Where a line of the tree comes from: a path below the directory
    that was rendered, through directories that are not excluded, and
    no deeper than the limit. *)
Lemma build_tree_rows_spec (e : entry) :
  forall dir prefix depth row,
    row ∈ build_tree fd max_depth e dir prefix depth ->
    exists rest,
      row_path row = dir ++ rest /\ rest <> []
      /\ Forall (fun d => should_exclude_dir fd d = false)
                (if row_is_dir row then rest else removelast rest)
      /\ (forall m, max_depth = Some m -> depth + Z.of_nat (length rest) <= m).
Proof.
  induction e as [n|n readable children IH|n] using entry_ind;
    intros dir prefix depth row Hrow;
    [by apply elem_of_nil in Hrow| |by apply elem_of_nil in Hrow].
  simpl in Hrow.
  destruct (depth_reached max_depth depth) eqn:Hdepth;
    [by apply elem_of_nil in Hrow|].
  assert (forall m, max_depth = Some m -> depth + 1 <= m) as Hlimit.
  { intros m Hm. unfold depth_reached in Hdepth. rewrite Hm in Hdepth.
    apply Z.leb_gt in Hdepth. lia. }
  destruct readable; simpl in Hrow; [|by apply elem_of_nil in Hrow].
  apply list_elem_of_In, in_concat in Hrow as (rows & Hrows & Hrow).
  apply list_elem_of_In, elem_of_lookup_imap in Hrows as (i & a & -> & Ha).
  apply list_elem_of_lookup_2, tree_entries_elem in Ha as [Ha Hkeep].
  apply list_elem_of_fmap in Ha as (c & -> & Hc).
  unfold tree_rows_of in Hrow. cbn [fst snd] in Hrow, Hkeep.
  destruct (is_dir c) eqn:Hdir.
  - apply in_inv in Hrow as [<-|Hrow].
    + exists [entry_name c]. cbn [row_path row_is_dir].
      split; [done|]. split; [done|]. split.
      * constructor; [by apply Hkeep|constructor].
      * intros m Hm. specialize (Hlimit m Hm). simpl. lia.
    + rewrite Forall_forall in IH.
      apply list_elem_of_In in Hrow.
      destruct (IH c Hc _ _ _ _ Hrow) as (rest & Hpath & Hne & Hall & Hdeep).
      exists (entry_name c :: rest). split; [|split; [done|split]].
      * by rewrite Hpath, <- app_assoc.
      * destruct (row_is_dir row).
        -- constructor; [by apply Hkeep|done].
        -- destruct rest as [|r rest]; [done|].
           change (removelast (entry_name c :: r :: rest))
             with (entry_name c :: removelast (r :: rest)).
           constructor; [by apply Hkeep|done].
      * intros m Hm. specialize (Hdeep m Hm). simpl length. lia.
  - destruct (shown_file fd (dir ++ [entry_name c])); [|done].
    apply in_inv in Hrow as [<-|[]].
    exists [entry_name c]. cbn [row_path row_is_dir].
    split; [done|]. split; [done|]. split; [constructor|].
    intros m Hm. specialize (Hlimit m Hm). simpl. lia.
Qed.

Lemma tree_rows_of_in_tree (dir : path) (prefix : string) (depth : Z)
    (entries : list listed) (i : nat) (a : listed) (row : tree_row) :
  entries !! i = Some a ->
  row ∈ tree_rows_of fd dir prefix depth (length entries) i a ->
  row ∈ concat (imap (tree_rows_of fd dir prefix depth (length entries)) entries).
Proof.
  intros Hi Hrow. apply list_elem_of_In, in_concat.
  exists (tree_rows_of fd dir prefix depth (length entries) i a).
  split; apply list_elem_of_In; [|done].
  apply (elem_of_lookup_imap_2 _ _ _ _ Hi).
Qed.

(** A walked file that passes the test of [_build_tree] has its line in
    the tree rendered without depth limit. *)
Lemma walk_below_row (e : entry) :
  forall dir prefix depth p,
    p ∈ walk_below fd dir e -> shown_file fd p = true ->
    exists row, row ∈ build_tree fd None e dir prefix depth
                /\ row_path row = p /\ row_is_dir row = false.
Proof.
  induction e as [n|n readable children IH|n] using entry_ind;
    intros dir prefix depth p Hp Hshown;
    [by apply elem_of_nil in Hp| |by apply elem_of_nil in Hp].
  simpl in Hp. destruct readable; [|by apply elem_of_nil in Hp].
  apply elem_of_flat_map in Hp as (c & Hc & Hp).
  cbn [build_tree depth_reached negb].
  set (listing := map (fun c0 => (c0, build_tree fd None c0 (dir ++ [entry_name c0])))
                      children).
  set (a := (c, build_tree fd None c (dir ++ [entry_name c])) : listed).
  assert (a ∈ listing) as Ha by (apply list_elem_of_fmap; by exists c).
  assert (is_dir c = true -> should_exclude_dir fd (entry_name c) = false) as Hkeep.
  { destruct c as [m|m r cs|m]; try done. intros _. simpl in Hp |- *.
    by destruct (should_exclude_dir fd m); [apply elem_of_nil in Hp|]. }
  assert (a ∈ tree_entries fd listing) as Hin by by apply tree_entries_elem.
  apply list_elem_of_lookup in Hin as [i Hi].
  destruct c as [m|m r cs|m].
  - simpl in Hp. apply list_elem_of_singleton in Hp as ->.
    eexists. split; [eapply tree_rows_of_in_tree; [exact Hi|]|].
    + unfold tree_rows_of. cbn [fst snd is_dir entry_name a].
      rewrite Hshown. apply list_elem_of_here.
    + done.
  - pose proof (Hkeep eq_refl) as Hex. simpl in Hp, Hex. rewrite Hex in Hp.
    rewrite Forall_forall in IH.
    destruct (IH _ Hc (dir ++ [m])
                (prefix +:+ (if (i =? length (tree_entries fd listing) - 1)%nat
                             then extension_last else extension_mid))
                (depth + 1) p Hp Hshown) as (row & Hrow & Hpath & Hfile).
    exists row. split; [|done].
    eapply tree_rows_of_in_tree; [exact Hi|].
    unfold tree_rows_of. cbn [fst snd is_dir entry_name a].
    by apply list_elem_of_further.
  - by apply elem_of_nil in Hp.
Qed.

End tree_rows.

Lemma Forall_removelast {A} (P : A -> Prop) (l : list A) :
  Forall P l -> Forall P (removelast l).
Proof.
  induction 1 as [|x l Hx Hl IH]; [constructor|].
  destruct l as [|y l]; [constructor|].
  change (removelast (x :: y :: l)) with (x :: removelast (y :: l)).
  by constructor.
Qed.

Lemma Forall_last {A} (P : A -> Prop) (l : list A) (d : A) :
  l <> [] -> Forall P l -> P (List.last l d).
Proof.
  intros Hne Hl. induction Hl as [|x l Hx Hl IH]; [done|].
  destruct l as [|y l]; [done|]. by apply IH.
Qed.

(** The tree prunes the excluded directories: no line is for an excluded
    directory, and no line is for an entry below one. *)
Theorem tree_prunes_excluded (fd : FileDiscovery) (max_depth : option Z)
    (root : entry) :
  Forall (fun row =>
            through_excluded fd (row_path row) = false
            /\ (row_is_dir row = true ->
                should_exclude_dir fd (path_name (row_path row)) = false))
         (build_tree fd max_depth root [] "" 0).
Proof.
  apply Forall_forall. intros row Hrow.
  apply build_tree_rows_spec in Hrow as (rest & Hpath & Hne & Hall & _).
  simpl in Hpath. rewrite Hpath. split.
  - unfold through_excluded. apply not_true_is_false. intros Hex.
    apply existsb_exists in Hex as (d & Hd & Hex).
    assert (Forall (fun d => should_exclude_dir fd d = false) (removelast rest))
      as Hrest by (destruct (row_is_dir row); [by apply Forall_removelast|done]).
    rewrite Forall_forall in Hrest.
    rewrite (Hrest d) in Hex; [done|]. by apply list_elem_of_In.
  - intros Hdir. rewrite Hdir in Hall. unfold path_name.
    by apply (Forall_last (fun d => should_exclude_dir fd d = false)).
Qed.

(** With a depth limit [m], no line of the tree is for an entry more
    than [m] levels below the root. *)
Theorem tree_depth_limit (fd : FileDiscovery) (m : Z) (root : entry) :
  Forall (fun row => Z.of_nat (length (row_path row)) <= m)
         (build_tree fd (Some m) root [] "" 0).
Proof.
  apply Forall_forall. intros row Hrow.
  apply build_tree_rows_spec in Hrow as (rest & Hpath & _ & _ & Hdeep).
  simpl in Hpath. rewrite Hpath. specialize (Hdeep m eq_refl). lia.
Qed.

(** With a depth limit of zero or less, the tree is the root line alone. *)
Theorem tree_depth_zero (fd : FileDiscovery) (m : Z) (root : entry) :
  m <= 0 ->
  generate_tree fd (Some m) root = entry_name root +:+ "/".
Proof.
  intros Hm. unfold generate_tree.
  assert (build_tree fd (Some m) root [] "" 0 = []) as ->; [|done].
  destruct root as [n|n readable children|n]; try done.
  cbn [build_tree depth_reached].
  by rewrite (proj2 (Z.leb_le m 0) Hm).
Qed.

Lemma tree_depth_zero_witness :
  0 <= 0
  /\ generate_tree default_discovery (Some 0)
       (Dir "repo" true [File "a.py"; Dir "src" true [File "b.py"]])
     = "repo/"%string.
Proof.
  assert (0 <= 0) as H by lia.
  split; [exact H|].
  exact (tree_depth_zero default_discovery 0
           (Dir "repo" true [File "a.py"; Dir "src" true [File "b.py"]]) H).
Defined.

(** Every line of the tree for an entry that is not a directory is for
    one that passes [_is_text_file], or for a PDF when PDF support is
    on. *)
Theorem tree_shows_only_included_files (fd : FileDiscovery)
    (max_depth : option Z) (root : entry) :
  Forall (fun row =>
            row_is_dir row = false ->
            is_text_file fd (row_path row) = true
            \/ (include_pdf fd = true /\ is_pdf_file (row_path row) = true))
         (build_tree fd max_depth root [] "" 0).
Proof.
  apply Forall_forall. intros row Hrow Hfile.
  apply build_tree_file_rows in Hrow; [|done].
  unfold shown_file in Hrow.
  apply orb_true_iff in Hrow as [?|Hpdf]; [by left|right].
  by apply andb_true_iff in Hpdf.
Qed.

(** The tree rendered without depth limit has a line for every file of
    [discover_files] that passes [_is_text_file]. *)
Theorem tree_shows_listed_files (fd : FileDiscovery) (root : entry) (p : path) :
  p ∈ discover_files fd root ->
  is_text_file fd p = true ->
  exists row, row ∈ build_tree fd None root [] "" 0
              /\ row_path row = p /\ row_is_dir row = false.
Proof.
  intros Hp Htext. apply discover_files_elem in Hp as [Hp _].
  apply walk_below_row.
  - by destruct root as [n|n [] children|n].
  - unfold shown_file. by rewrite Htext.
Qed.

Lemma tree_shows_listed_files_witness :
  (["src"; "b.py"] ∈ discover_files default_discovery
      (Dir "repo" true [File "a.py"; Dir "src" true [File "b.py"]])
   /\ is_text_file default_discovery ["src"; "b.py"] = true)
  /\ exists row,
       row ∈ build_tree default_discovery None
               (Dir "repo" true [File "a.py"; Dir "src" true [File "b.py"]])
               [] "" 0
       /\ row_path row = ["src"; "b.py"] /\ row_is_dir row = false.
Proof.
  assert (["src"; "b.py"] ∈ discover_files default_discovery
            (Dir "repo" true [File "a.py"; Dir "src" true [File "b.py"]]))
    as Hp by compute_done.
  assert (is_text_file default_discovery ["src"; "b.py"] = true)
    as Ht by (vm_compute; reflexivity).
  split; [done|].
  exact (tree_shows_listed_files default_discovery
           (Dir "repo" true [File "a.py"; Dir "src" true [File "b.py"]])
           ["src"; "b.py"] Hp Ht).
Defined.

(** ** The enumeration on a small repository *)

Lemma discover_files_not_excluded_witness :
  ["src"; "b.py"] ∈ discover_files default_discovery
     (Dir "repo" true
        [ File "a.py"; Dir "src" true [File "b.py"];
          Dir "node_modules" true [File "ignored.js"] ])
  /\ through_excluded default_discovery ["src"; "b.py"] = false.
Proof.
  assert (["src"; "b.py"] ∈ discover_files default_discovery
            (Dir "repo" true
               [ File "a.py"; Dir "src" true [File "b.py"];
                 Dir "node_modules" true [File "ignored.js"] ]))
    as Hp by compute_done.
  split; [exact Hp|].
  exact (discover_files_not_excluded default_discovery _ _ Hp).
Defined.

Lemma discover_files_NoDup_witness :
  distinct_names
    (Dir "repo" true [File "a.py"; Dir "src" true [File "b.py"; File "a.py"]])
  /\ NoDup (discover_files default_discovery
              (Dir "repo" true [File "a.py"; Dir "src" true [File "b.py"; File "a.py"]])).
Proof.
  assert (distinct_names
            (Dir "repo" true [File "a.py"; Dir "src" true [File "b.py"; File "a.py"]]))
    as Hd.
  { cbn [distinct_names fold_right map entry_name].
    split; [compute_done|]. split; [exact I|]. split; [|exact I].
    split; [compute_done|]. split; [exact I|]. split; exact I. }
  split; [exact Hd|].
  exact (discover_files_NoDup default_discovery _ Hd).
Defined.

Lemma discover_files_includes_witness :
  (["src"; "b.py"] ∈ walk_directory default_discovery
      (Dir "repo" true [File "a.py"; Dir "src" true [File "b.py"]])
   /\ is_root_readme ["src"; "b.py"] = false
   /\ is_text_file default_discovery ["src"; "b.py"] = true)
  /\ ["src"; "b.py"] ∈ discover_files default_discovery
       (Dir "repo" true [File "a.py"; Dir "src" true [File "b.py"]]).
Proof.
  assert (["src"; "b.py"] ∈ walk_directory default_discovery
            (Dir "repo" true [File "a.py"; Dir "src" true [File "b.py"]]))
    as Hp by compute_done.
  assert (is_root_readme ["src"; "b.py"] = false) as Hr by (vm_compute; reflexivity).
  assert (is_text_file default_discovery ["src"; "b.py"] = true)
    as Ht by (vm_compute; reflexivity).
  split; [done|].
  exact (discover_files_includes default_discovery _ _ Hp Hr Ht).
Defined.

Lemma discover_files_keeps_readmes_witness :
  (existsb is_root_readme_md
     (walk_directory default_discovery
        (Dir "repo" true [File "readme.bin"; File "README.txt"; File "a.py"]))
   = false
   /\ ["README.txt"] ∈ walk_directory default_discovery
        (Dir "repo" true [File "readme.bin"; File "README.txt"; File "a.py"])
   /\ is_root_readme ["README.txt"] = true)
  /\ ["README.txt"] ∈ discover_files default_discovery
       (Dir "repo" true [File "readme.bin"; File "README.txt"; File "a.py"]).
Proof.
  assert (existsb is_root_readme_md
            (walk_directory default_discovery
               (Dir "repo" true [File "readme.bin"; File "README.txt"; File "a.py"]))
          = false) as Hmd by (vm_compute; reflexivity).
  assert (["README.txt"] ∈ walk_directory default_discovery
            (Dir "repo" true [File "readme.bin"; File "README.txt"; File "a.py"]))
    as Hp by compute_done.
  assert (is_root_readme ["README.txt"] = true) as Hr by (vm_compute; reflexivity).
  split; [done|].
  exact (discover_files_keeps_readmes default_discovery _ _ Hmd Hp Hr).
Defined.

Lemma text_and_pdf_files_partition_witness :
  include_pdf (converter.discovery_of (converter.config pdf_converter_limit_10)) = true
  /\ (get_text_files (converter.discovery_of (converter.config pdf_converter_limit_10))
        (Dir "repo" true [File "a.pdf"; File "b.py"])
      ++ get_pdf_files (converter.discovery_of (converter.config pdf_converter_limit_10))
           (Dir "repo" true [File "a.pdf"; File "b.py"])
      ≡ₚ discover_files (converter.discovery_of (converter.config pdf_converter_limit_10))
           (Dir "repo" true [File "a.pdf"; File "b.py"])
      /\ (forall p,
            p ∈ get_text_files
                  (converter.discovery_of (converter.config pdf_converter_limit_10))
                  (Dir "repo" true [File "a.pdf"; File "b.py"]) ->
            p ∉ get_pdf_files
                  (converter.discovery_of (converter.config pdf_converter_limit_10))
                  (Dir "repo" true [File "a.pdf"; File "b.py"]))).
Proof.
  split; [reflexivity|].
  exact (text_and_pdf_files_partition
           (converter.discovery_of (converter.config pdf_converter_limit_10))
           (Dir "repo" true [File "a.pdf"; File "b.py"]) eq_refl).
Defined.

Lemma process_file_text_too_large_witness :
  (is_pdf_file ["big.txt"] && converter._pdf_reader pdf_converter_limit_10 = false
   /\ text_reader.max_file_size (converter._text_reader pdf_converter_limit_10) = Some 10
   /\ text_reader.path_exists
        (converter.disk (thousand_byte_files (Dir "repo" true [File "big.txt"]))
           ["big.txt"]) = true
   /\ text_reader.path_is_file
        (converter.disk (thousand_byte_files (Dir "repo" true [File "big.txt"]))
           ["big.txt"]) = true
   /\ text_reader.st_size
        (converter.disk (thousand_byte_files (Dir "repo" true [File "big.txt"]))
           ["big.txt"]) = Some 1000
   /\ 10 < 1000)
  /\ content (converter.process_file pdf_converter_limit_10
                (thousand_byte_files (Dir "repo" true [File "big.txt"])) ["big.txt"])
     = "[File too large: " +:+ pretty 1000 +:+ " bytes]".
Proof.
  assert (10 < 1000) as Hlt by lia.
  split; [repeat split; try reflexivity; exact Hlt|].
  exact (process_file_text_too_large pdf_converter_limit_10
           (thousand_byte_files (Dir "repo" true [File "big.txt"]))
           ["big.txt"] 10 1000 eq_refl eq_refl eq_refl eq_refl eq_refl Hlt).
Defined.

(** ** How many chunks, and how long *)

Section chunk_bounds.
Context (g : MarkdownGenerator) (max_chars : Z).

Lemma blocks_size_snoc (fs : list FileContent) (fc : FileContent) :
  blocks_size (fs ++ [fc]) = blocks_size fs + PyStr.len (file_block fc).
Proof. induction fs as [|f fs IH]; simpl; [lia|]. rewrite IH. lia. Qed.

Lemma chunk_step_well_packed closed h open size fc :
  chunks_well_packed g max_chars closed h open size ->
  exists closed' h' open' size',
    chunk_step g max_chars (chunk_state_of closed h open size) fc
    = chunk_state_of closed' h' open' size'
    /\ chunks_well_packed g max_chars closed' h' open' size'
    /\ open' <> []
    /\ concat (map snd closed') ++ open' = (concat (map snd closed) ++ open) ++ [fc].
Proof.
  intros (Hclosed & Hsize & Hbound & Hempty). unfold chunk_step.
  cbn [current_chunk_parts current_chunk_size chunks chunk_state_of is_nil negb].
  rewrite andb_true_r. fold (file_block fc).
  destruct (max_chars <? size + PyStr.len (file_block fc)) eqn:Hover.
  - destruct ((1 <? length (h :: map file_block open))%nat
              || (PyStr.len (header_with_section g) <? size)) eqn:Hsave.
    + assert (open <> []) as Hopen.
      { intros ->. destruct (Hempty eq_refl) as [_ ->].
        simpl in Hsave, Hsize. apply Z.ltb_lt in Hsave. lia. }
      exists (closed ++ [(h, open)]), (continuation_header g), [fc],
        (PyStr.len (continuation_header g) + PyStr.len (file_block fc)).
      split; [|split; [|split; [done|]]].
      * unfold chunk_state_of. cbn [chunks current_chunk_parts current_chunk_size map].
        rewrite map_app. simpl map. unfold render_group at 2. simpl fst. simpl snd.
        by rewrite join_blocks.
      * split; [|split; [|split]].
        -- apply Forall_app. split; [done|]. constructor; [|constructor].
           cbn [fst snd]. split; [done|]. intros Htwo. specialize (Hbound Htwo). lia.
        -- simpl. lia.
        -- simpl. lia.
        -- done.
      * rewrite map_app, concat_app. simpl. by rewrite app_nil_r.
    + apply orb_false_iff in Hsave as [Hlen _].
      apply Nat.ltb_ge in Hlen. simpl in Hlen.
      destruct open as [|fc' open]; [|simpl in Hlen; lia].
      destruct (Hempty eq_refl) as [-> ->].
      exists [], (continuation_header g), [fc],
        (PyStr.len (continuation_header g) + PyStr.len (file_block fc)).
      split; [done|]. split; [|split; [done|done]].
      split; [constructor|]. split; [simpl; lia|]. split; [simpl; lia|done].
  - apply Z.ltb_ge in Hover.
    exists closed, h, (open ++ [fc]), (size + PyStr.len (file_block fc)).
    split; [|split; [|split]].
    + unfold chunk_state_of. cbn [chunks current_chunk_parts current_chunk_size].
      by rewrite map_app.
    + split; [done|]. split; [rewrite blocks_size_snoc; lia|].
      split; [intros _; lia|]. by destruct open.
    + by destruct open.
    + by rewrite app_assoc.
Qed.

Lemma chunk_fold_well_packed (fs : list FileContent) :
  exists closed h open size,
    fold_left (chunk_step g max_chars) fs (chunk_init g)
    = chunk_state_of closed h open size
    /\ chunks_well_packed g max_chars closed h open size
    /\ (fs <> [] -> open <> [])
    /\ concat (map snd closed) ++ open = fs.
Proof.
  induction fs as [|fc fs IH] using rev_ind.
  - exists [], (header_with_section g), [], (PyStr.len (header_with_section g)).
    split; [done|]. split; [|done].
    split; [constructor|]. split; [simpl; lia|]. split; [simpl; lia|done].
  - destruct IH as (closed & h & open & size & Hst & Hpacked & _ & Hfs).
    rewrite fold_left_app. simpl. rewrite Hst.
    destruct (chunk_step_well_packed closed h open size fc Hpacked)
      as (closed' & h' & open' & size' & Hst' & Hpacked' & Hopen' & Hfs').
    exists closed', h', open', size'. rewrite Hfs in Hfs'. done.
Qed.

End chunk_bounds.

(** [generate_chunked] returns at least one chunk and, when files were
    added, no more chunks than files. *)
Theorem generate_chunked_count (g : MarkdownGenerator) (max_chars : Z) :
  (1 <= length (generate_chunked g max_chars)
   <= Nat.max 1 (length (_files g)))%nat.
Proof.
  destruct (chunk_fold_well_packed g max_chars (_files g))
    as (closed & h & open & size & Hst & (Hclosed & _ & _ & Hempty) & Hopen & Hfs).
  rewrite (chunks_of_final_state g max_chars closed h open size Hst).
  rewrite length_map, length_app. simpl. split; [lia|].
  rewrite <- Hfs, length_app.
  assert (length closed <= length (concat (map snd closed)))%nat as Hlen.
  { clear -Hclosed. induction Hclosed as [|[h' fs'] l [Hne _] Hl IH]; simpl; [lia|].
    rewrite length_app. simpl in Hne. destruct fs'; [done|]. simpl. lia. }
  destruct open as [|fc open].
  - destruct (Hempty eq_refl) as [-> _]. simpl. lia.
  - simpl. lia.
Qed.



(** With no file added, the single chunk is the header with its section
    heading. *)
Theorem generate_chunked_no_files (g : MarkdownGenerator) (max_chars : Z) :
  _files g = [] ->
  generate_chunked g max_chars = [header_with_section g]
  /\ generate g = header_with_section g.
Proof.
  intros Hfiles. split.
  - unfold generate_chunked, chunk_loop. by rewrite Hfiles.
  - rewrite generate_header_body, Hfiles. apply string_app_nil_r.
Qed.

Lemma generate_chunked_no_files_witness :
  _files (mkMarkdownGenerator "r" true false None [] "r/") = []
  /\ (generate_chunked (mkMarkdownGenerator "r" true false None [] "r/") 10
      = [header_with_section (mkMarkdownGenerator "r" true false None [] "r/")]
      /\ generate (mkMarkdownGenerator "r" true false None [] "r/")
         = header_with_section (mkMarkdownGenerator "r" true false None [] "r/")).
Proof.
  split; [reflexivity|].
  exact (generate_chunked_no_files (mkMarkdownGenerator "r" true false None [] "r/")
           10 eq_refl).
Defined.

(** The bound that the loop does keep: a chunk that packs two or more
    files is at most [max_chars] characters long, plus one character for
    each of its files. *)
Theorem generate_chunked_soft_bound (g : MarkdownGenerator) (max_chars : Z) :
  exists groups : list chunk_group,
    generate_chunked g max_chars = map render_group groups
    /\ concat (map snd groups) = _files g
    /\ Forall (fun cg => (2 <= length cg.2)%nat ->
                         PyStr.len (render_group cg)
                         <= max_chars + Z.of_nat (length cg.2)) groups.
Proof.
  destruct (chunk_fold_well_packed g max_chars (_files g))
    as (closed & h & open & size & Hst & (Hclosed & Hsize & Hbound & _) & _ & Hfs).
  exists (closed ++ [(h, open)]). split; [|split].
  - by eapply chunks_of_final_state.
  - rewrite map_app, concat_app. simpl. by rewrite app_nil_r.
  - apply Forall_app. split.
    + eapply Forall_impl; [exact Hclosed|]. intros cg [_ Hcg] Htwo.
      rewrite len_render_group. specialize (Hcg Htwo). lia.
    + constructor; [|constructor]. intros Htwo. cbn [snd] in Htwo.
      rewrite len_render_group. cbn [fst snd]. specialize (Hbound Htwo). lia.
Qed.

(** ** The files that the chunks are written to *)

Section chunk_files.

Lemma string_app_inj_r (s1 s2 t : string) : s1 +:+ t = s2 +:+ t -> s1 = s2.
Proof.
  intros H. apply (f_equal String.rev) in H. rewrite !rev_app in H.
  apply (inj (String.app (String.rev t))) in H.
  apply (f_equal String.rev) in H. by rewrite !rev_involutive in H.
Qed.

Lemma part_path_inj (output_path : path) (i j : nat) :
  part_path output_path i = part_path output_path j -> i = j.
Proof.
  unfold part_path. intros H. apply app_inv_head in H. injection H as H.
  apply (inj (String.app _)) in H. apply (inj (String.app _)) in H.
  apply string_app_inj_r in H. by apply (inj pretty) in H.
Qed.

Lemma imap_snd_pair {A B} (f : nat -> A) (l : list B) :
  map snd (imap (fun i x => (f i, x)) l) = l.
Proof.
  revert f. induction l as [|x l IH]; intros f; [done|].
  rewrite imap_cons. simpl. f_equal. apply (IH (f ∘ S)).
Qed.

Lemma imap_fst_NoDup {A B} (f : nat -> A) (l : list B) :
  (forall i j, f i = f j -> i = j) ->
  NoDup (map fst (imap (fun i x => (f i, x)) l)).
Proof.
  revert f. induction l as [|x l IH]; intros f Hinj; [constructor|].
  rewrite imap_cons. simpl. apply NoDup_cons. split.
  - intros Hin. apply list_elem_of_fmap in Hin as ([a y] & Ha & Hin).
    apply elem_of_lookup_imap in Hin as (i & z & Heq & _).
    simpl in Ha. injection Heq as -> _. by apply Hinj in Ha.
  - apply (IH (f ∘ S)). intros i j Hij. apply Hinj in Hij. lia.
Qed.

End chunk_files.

(** [generate_chunked_to_files] writes every chunk once, in order, to
    paths that are all different; a single chunk goes to the requested
    path itself. *)
Theorem chunk_files_written (g : MarkdownGenerator) (output_path : path)
    (max_chars : Z) :
  map snd (generate_chunked_to_files g output_path max_chars)
  = generate_chunked g max_chars
  /\ NoDup (map fst (generate_chunked_to_files g output_path max_chars))
  /\ (length (generate_chunked g max_chars) = 1%nat
      <-> map fst (generate_chunked_to_files g output_path max_chars)
          = [output_path]).
Proof.
  unfold generate_chunked_to_files.
  destruct (length (generate_chunked g max_chars) =? 1)%nat eqn:Hone.
  - apply Nat.eqb_eq in Hone.
    destruct (generate_chunked g max_chars) as [|c [|c' l]]; try done.
    simpl. split; [done|]. split; [apply NoDup_singleton|done].
  - apply Nat.eqb_neq in Hone. split; [apply imap_snd_pair|]. split.
    + apply (imap_fst_NoDup (fun i => part_path output_path (S i))).
      intros i j Hij. apply part_path_inj in Hij. lia.
    + split; [done|]. intros Hpaths.
      apply (f_equal length) in Hpaths.
      rewrite length_map, length_imap in Hpaths. done.
Qed.

(** Two or more chunks go to [<stem>_part<N><suffix>] beside the
    requested path, with [N] counting the chunks from 1. *)
Theorem chunk_files_numbered (g : MarkdownGenerator) (output_path : path)
    (max_chars : Z) :
  length (generate_chunked g max_chars) <> 1%nat ->
  map fst (generate_chunked_to_files g output_path max_chars)
  = map (part_path output_path) (seq 1 (length (generate_chunked g max_chars))).
Proof.
  intros Hmany. unfold generate_chunked_to_files.
  apply Nat.eqb_neq in Hmany. rewrite Hmany.
  generalize (generate_chunked g max_chars). intros l.
  change (fun (i : nat) (chunk : string) => (part_path output_path (S i), chunk))
    with (fun (i : nat) (chunk : string) => (part_path output_path (1 + i), chunk)).
  generalize 1%nat. induction l as [|c l IH]; intros k; [done|].
  rewrite imap_cons. simpl. rewrite Nat.add_0_r. f_equal.
  rewrite <- (IH (S k)). f_equal. apply imap_ext. intros i x _. simpl.
  by rewrite Nat.add_succ_r.
Qed.

Lemma chunk_files_numbered_witness :
  length (generate_chunked two_files_no_tree 64) <> 1%nat
  /\ map fst (generate_chunked_to_files two_files_no_tree ["out"; "repo.md"] 64)
     = [["out"; "repo_part1.md"]; ["out"; "repo_part2.md"]].
Proof.
  assert (length (generate_chunked two_files_no_tree 64) <> 1%nat) as H
    by (vm_compute; discriminate).
  split; [exact H|].
  rewrite (chunk_files_numbered two_files_no_tree ["out"; "repo.md"] 64 H).
  vm_compute. reflexivity.
Defined.

(** ** The anchors of the table of contents *)

Section anchor_shape.

#[local] Arguments String.append !_ _ /.

Lemma settled_hyphenate_lower_char (c : ascii) :
  settled_char (if kept_char (PyStr.lower_char c) then PyStr.lower_char c else "-"%char)
  = true.
Proof. destruct c as [[] [] [] [] [] [] [] []]; reflexivity. Qed.

Lemma settled_hyphenate_lower (s : string) :
  all_chars settled_char (hyphenate (PyStr.lower s)) = true.
Proof.
  induction s as [|c s IH]; [done|]. simpl. rewrite IH, andb_true_r.
  apply settled_hyphenate_lower_char.
Qed.

Lemma all_chars_app (test : ascii -> bool) (s1 s2 : string) :
  all_chars test (s1 +:+ s2) = all_chars test s1 && all_chars test s2.
Proof.
  induction s1 as [|c s1 IH]; simpl; [done|]. by rewrite IH, andb_assoc.
Qed.

Lemma all_chars_rev (test : ascii -> bool) (s : string) :
  all_chars test (String.rev s) = all_chars test s.
Proof.
  induction s as [|c s IH]; [done|].
  rewrite rev_cons, all_chars_app, IH. simpl. rewrite andb_true_r.
  apply andb_comm.
Qed.

Lemma all_chars_replace (test : ascii -> bool) (n : nat) :
  forall s, (String.length s <= n)%nat -> all_chars test s = true ->
    all_chars test (replace_double_hyphen s) = true.
Proof.
  induction n as [|n IH]; intros s Hlen Hs.
  - by destruct s; [|simpl in Hlen; lia].
  - destruct s as [|c1 [|c2 s]]; [done..|].
    simpl in Hlen, Hs. apply andb_true_iff in Hs as [H1 Hs].
    pose proof Hs as Hs'. apply andb_true_iff in Hs' as [H2 H3].
    cbn [replace_double_hyphen].
    destruct (Ascii.eqb c1 "-" && Ascii.eqb c2 "-") eqn:Hdd.
    + apply andb_true_iff in Hdd as [Hc1 _]. apply Ascii.eqb_eq in Hc1. subst c1.
      simpl. rewrite H1. apply IH; [lia|done].
    + simpl. rewrite H1. simpl. apply (IH (String c2 s)); [simpl; lia|done].
Qed.

Lemma all_chars_collapse (test : ascii -> bool) (rounds : nat) (s : string) :
  all_chars test s = true ->
  all_chars test (collapse_hyphens_loop rounds s) = true.
Proof.
  revert s. induction rounds as [|rounds IH]; intros s Hs; [done|].
  simpl. destruct (has_double_hyphen s); [|done].
  apply IH. by apply (all_chars_replace test (String.length s)).
Qed.

Lemma all_chars_lstrip (test : ascii -> bool) (s : string) :
  all_chars test s = true -> all_chars test (lstrip_hyphen s) = true.
Proof.
  induction s as [|c s IH]; [done|]. simpl. intros Hs.
  apply andb_true_iff in Hs as [Hc Hs].
  destruct (Ascii.eqb c "-"); [by apply IH|]. simpl. by rewrite Hc.
Qed.

Lemma lstrip_suffix (s : string) : exists hy, s = hy +:+ lstrip_hyphen s.
Proof.
  induction s as [|c s [hy IH]]; [by exists ""%string|]. simpl.
  destruct (Ascii.eqb c "-").
  - exists (String c hy). simpl. by rewrite <- IH.
  - by exists ""%string.
Qed.

Lemma startswith_hyphen (c : ascii) (s : string) :
  PyStr.startswith (String c s) "-" = Ascii.eqb c "-".
Proof.
  unfold PyStr.startswith. cbn [String.prefix].
  destruct (ascii_dec "-" c) as [<-|Hne]; [by destruct s|].
  symmetry. apply Ascii.eqb_neq. congruence.
Qed.

Lemma lstrip_no_lead (s : string) :
  PyStr.startswith (lstrip_hyphen s) "-" = false.
Proof.
  induction s as [|c s IH]; [done|]. simpl.
  destruct (Ascii.eqb c "-") eqn:Hc; [done|]. by rewrite startswith_hyphen.
Qed.

Lemma lstrip_id (s : string) :
  PyStr.startswith s "-" = false -> lstrip_hyphen s = s.
Proof.
  destruct s as [|c s]; [done|]. rewrite startswith_hyphen. simpl. by intros ->.
Qed.

Lemma has_double_hyphen_app (s1 s2 : string) :
  has_double_hyphen (s1 +:+ s2) = false ->
  has_double_hyphen s1 = false /\ has_double_hyphen s2 = false.
Proof.
  induction s1 as [|c1 s1 IH]; [done|].
  destruct s1 as [|c2 s1].
  - simpl. destruct s2 as [|c2 s2]; [done|].
    intros H. apply orb_false_iff in H as [_ H]. done.
  - change (String c1 (String c2 s1) +:+ s2)
      with (String c1 (String c2 s1 +:+ s2)).
    change (has_double_hyphen (String c1 (String c2 s1 +:+ s2)))
      with ((Ascii.eqb c1 "-" && Ascii.eqb c2 "-")
            || has_double_hyphen (String c2 s1 +:+ s2)).
    change (has_double_hyphen (String c1 (String c2 s1)))
      with ((Ascii.eqb c1 "-" && Ascii.eqb c2 "-")
            || has_double_hyphen (String c2 s1)).
    intros H. apply orb_false_iff in H as [-> H].
    by destruct (IH H) as [-> ->].
Qed.

(** The stripped string lies inside the string it was stripped from. *)
Lemma strip_infix (s : string) :
  exists pre post, s = pre +:+ strip_hyphen s +:+ post.
Proof.
  unfold strip_hyphen.
  destruct (lstrip_suffix s) as [pre Hpre].
  destruct (lstrip_suffix (String.rev (lstrip_hyphen s))) as [hy Hhy].
  exists pre, (String.rev hy).
  rewrite <- rev_app, <- Hhy, rev_involutive. done.
Qed.

Lemma strip_no_lead (s : string) :
  PyStr.startswith (strip_hyphen s) "-" = false.
Proof.
  pose proof (lstrip_no_lead s) as Hlead. unfold strip_hyphen.
  destruct (lstrip_suffix (String.rev (lstrip_hyphen s))) as [hy Hhy].
  apply (f_equal String.rev) in Hhy. rewrite rev_involutive, rev_app in Hhy.
  destruct (String.rev (lstrip_hyphen (String.rev (lstrip_hyphen s))))
    as [|c r]; [done|].
  rewrite Hhy in Hlead.
  change (PyStr.startswith (String c (r +:+ String.rev hy)) "-" = false) in Hlead.
  by rewrite startswith_hyphen in Hlead |- *.
Qed.

Lemma strip_no_trail (s : string) :
  PyStr.endswith (strip_hyphen s) "-" = false.
Proof.
  unfold PyStr.endswith, strip_hyphen. rewrite rev_involutive.
  apply lstrip_no_lead.
Qed.

Lemma lower_settled (s : string) :
  all_chars settled_char s = true -> PyStr.lower s = s.
Proof.
  induction s as [|c s IH]; [done|]. simpl. intros H.
  apply andb_true_iff in H as [Hc Hs]. unfold settled_char in Hc.
  apply andb_true_iff in Hc as [_ Hc]. apply Ascii.eqb_eq in Hc.
  by rewrite Hc, IH.
Qed.

Lemma hyphenate_settled (s : string) :
  all_chars settled_char s = true -> hyphenate s = s.
Proof.
  induction s as [|c s IH]; [done|]. simpl. intros H.
  apply andb_true_iff in H as [Hc Hs]. unfold settled_char, kept_char in Hc.
  apply andb_true_iff in Hc as [Hc _]. by rewrite Hc, IH.
Qed.

Lemma settled_kept (s : string) :
  all_chars settled_char s = true -> all_chars kept_char s = true.
Proof.
  induction s as [|c s IH]; [done|]. simpl. intros H.
  apply andb_true_iff in H as [Hc Hs]. unfold settled_char in Hc.
  apply andb_true_iff in Hc as [Hc _]. by rewrite Hc, IH.
Qed.

Lemma create_anchor_settled (text : string) :
  all_chars settled_char (create_anchor text) = true.
Proof.
  unfold create_anchor, strip_hyphen, collapse_hyphens.
  rewrite all_chars_rev. apply all_chars_lstrip.
  rewrite all_chars_rev. apply all_chars_lstrip.
  apply all_chars_collapse, settled_hyphenate_lower.
Qed.

Lemma create_anchor_no_double (text : string) :
  has_double_hyphen (create_anchor text) = false.
Proof.
  unfold create_anchor.
  pose proof (collapse_hyphens_done (hyphenate (PyStr.lower text))) as Hdone.
  destruct (strip_infix (collapse_hyphens (hyphenate (PyStr.lower text))))
    as (pre & post & Heq).
  rewrite Heq in Hdone.
  apply has_double_hyphen_app in Hdone as [_ Hdone].
  by apply has_double_hyphen_app in Hdone as [Hdone _].
Qed.

End anchor_shape.

(** An anchor is made of alphanumeric characters and single hyphens, and
    neither starts nor ends with a hyphen. *)
Theorem create_anchor_shape (text : string) :
  all_chars kept_char (create_anchor text) = true
  /\ has_double_hyphen (create_anchor text) = false
  /\ PyStr.startswith (create_anchor text) "-" = false
  /\ PyStr.endswith (create_anchor text) "-" = false.
Proof.
  split; [apply settled_kept, create_anchor_settled|].
  split; [apply create_anchor_no_double|].
  split; [apply strip_no_lead|apply strip_no_trail].
Qed.

(** The anchor transform is idempotent. *)
Theorem create_anchor_idempotent (text : string) :
  create_anchor (create_anchor text) = create_anchor text.
Proof.
  pose proof (create_anchor_settled text) as Hsettled.
  pose proof (create_anchor_no_double text) as Hdd.
  assert (PyStr.startswith (create_anchor text) "-" = false) as Hlead
    by apply strip_no_lead.
  assert (PyStr.endswith (create_anchor text) "-" = false) as Htrail
    by apply strip_no_trail.
  revert Hsettled Hdd Hlead Htrail. generalize (create_anchor text). intros a.
  intros Hsettled Hdd Hlead Htrail.
  unfold create_anchor at 1.
  rewrite (lower_settled a Hsettled), (hyphenate_settled a Hsettled).
  assert (collapse_hyphens a = a) as ->.
  { unfold collapse_hyphens. destruct (String.length a); [done|].
    simpl. by rewrite Hdd. }
  unfold strip_hyphen. rewrite (lstrip_id a Hlead).
  unfold PyStr.endswith in Htrail.
  rewrite (lstrip_id (String.rev a) Htrail). apply rev_involutive.
Qed.

(** ** Reading a file *)

(** [read_file] answers [None] in exactly three cases: the path does not
    exist, it is not a regular file, or a size limit is set and the size
    cannot be read. *)
Theorem read_file_none_iff (r : text_reader.TextReader)
    (f : text_reader.disk_file) :
  text_reader.read_file r f = None
  <-> text_reader.path_exists f = false
      \/ text_reader.path_is_file f = false
      \/ (is_Some (text_reader.max_file_size r)
          /\ text_reader.st_size f = None).
Proof.
  unfold text_reader.read_file.
  destruct (text_reader.path_exists f); simpl; [|by split; [left|]].
  destruct (text_reader.path_is_file f); simpl; [|by split; [right; left|]].
  destruct (text_reader.max_file_size r) as [limit|]; simpl.
  - destruct (text_reader.st_size f) as [size|]; simpl.
    + destruct (limit <? size); split; try done;
        intros [?|[?|[_ ?]]]; done.
    + split; [|done]. intros _. right. right. split; [by eexists|done].
  - split; [done|]. intros [?|[?|[[? ?] _]]]; done.
Qed.

(** The encodings are tried in the order of the list: the text comes
    from the first one that does not fail with a Unicode error. *)
Lemma read_with_encodings_first (f : text_reader.disk_file)
    (tried rest : list string) (encoding text : string) :
  Forall (fun e => text_reader.read_text f e = text_reader.ReadUnicodeError) tried ->
  text_reader.read_text f encoding = text_reader.ReadOk text ->
  text_reader.read_with_encodings f (tried ++ encoding :: rest) = text.
Proof.
  intros Htried Hok. induction Htried as [|e tried He _ IH]; simpl.
  - by rewrite Hok.
  - by rewrite He.
Qed.

(** A readable file within the size limit is returned as decoded by the
    first encoding of [ENCODING_FALLBACKS] that accepts its bytes. *)
Theorem read_file_first_encoding (r : text_reader.TextReader)
    (f : text_reader.disk_file) (tried rest : list string)
    (encoding text : string) :
  text_reader.ENCODING_FALLBACKS = tried ++ encoding :: rest ->
  text_reader.path_exists f = true ->
  text_reader.path_is_file f = true ->
  (forall limit, text_reader.max_file_size r = Some limit ->
     exists size, text_reader.st_size f = Some size /\ size <= limit) ->
  Forall (fun e => text_reader.read_text f e = text_reader.ReadUnicodeError) tried ->
  text_reader.read_text f encoding = text_reader.ReadOk text ->
  text_reader.read_file r f = Some text.
Proof.
  intros Hlist Hex Hfile Hlimit Htried Hok. unfold text_reader.read_file.
  rewrite Hex, Hfile. cbn [negb].
  assert (text_reader.read_with_encodings f text_reader.ENCODING_FALLBACKS = text)
    as Hread by (rewrite Hlist; by apply read_with_encodings_first).
  destruct (text_reader.max_file_size r) as [limit|]; [|by rewrite Hread].
  destruct (Hlimit limit eq_refl) as (size & -> & Hle).
  rewrite (proj2 (Z.ltb_ge limit size) Hle). by rewrite Hread.
Qed.

(** An error of the operating system while reading ends the attempts:
    the content is the bracketed message, and no later encoding is
    tried. *)
Theorem read_file_os_error (r : text_reader.TextReader)
    (f : text_reader.disk_file) (tried rest : list string)
    (encoding message : string) :
  text_reader.ENCODING_FALLBACKS = tried ++ encoding :: rest ->
  text_reader.path_exists f = true ->
  text_reader.path_is_file f = true ->
  text_reader.max_file_size r = None ->
  Forall (fun e => text_reader.read_text f e = text_reader.ReadUnicodeError) tried ->
  text_reader.read_text f encoding = text_reader.ReadOSError message ->
  text_reader.read_file r f = Some ("[Error reading file: " +:+ message +:+ "]").
Proof.
  intros Hlist Hex Hfile Hlimit Htried Herr. unfold text_reader.read_file.
  rewrite Hex, Hfile, Hlimit, Hlist. cbn [negb]. f_equal.
  clear Hlist. induction Htried as [|e tried He _ IH]; simpl.
  - by rewrite Herr.
  - by rewrite He.
Qed.

Lemma read_file_first_encoding_witness :
  (text_reader.ENCODING_FALLBACKS = [] ++ "utf-8"%string :: ["utf-8-sig"; "latin-1"; "cp1252"; "ascii"]%string
   /\ text_reader.path_exists (converter.disk (thousand_byte_files (File "a")) ["a"]) = true
   /\ text_reader.path_is_file (converter.disk (thousand_byte_files (File "a")) ["a"]) = true
   /\ (forall limit, text_reader.max_file_size (text_reader.mkTextReader (Some 2000)) = Some limit ->
         exists size,
           text_reader.st_size (converter.disk (thousand_byte_files (File "a")) ["a"]) = Some size
           /\ size <= limit)
   /\ Forall (fun e => text_reader.read_text
                         (converter.disk (thousand_byte_files (File "a")) ["a"]) e
                       = text_reader.ReadUnicodeError) []
   /\ text_reader.read_text (converter.disk (thousand_byte_files (File "a")) ["a"]) "utf-8"
      = text_reader.ReadOk "plain text")
  /\ text_reader.read_file (text_reader.mkTextReader (Some 2000))
       (converter.disk (thousand_byte_files (File "a")) ["a"])
     = Some "plain text"%string.
Proof.
  assert (forall limit, text_reader.max_file_size (text_reader.mkTextReader (Some 2000)) = Some limit ->
            exists size,
              text_reader.st_size (converter.disk (thousand_byte_files (File "a")) ["a"]) = Some size
              /\ size <= limit) as Hlimit.
  { intros limit H. injection H as <-. exists 1000. split; [reflexivity|lia]. }
  split; [repeat split; try reflexivity; [exact Hlimit|constructor]|].
  exact (read_file_first_encoding (text_reader.mkTextReader (Some 2000))
           (converter.disk (thousand_byte_files (File "a")) ["a"])
           [] ["utf-8-sig"; "latin-1"; "cp1252"; "ascii"]%string "utf-8" "plain text"
           eq_refl eq_refl eq_refl Hlimit (Forall_nil_2 _) eq_refl).
Defined.

Lemma read_file_os_error_witness :
  (text_reader.ENCODING_FALLBACKS
   = [] ++ "utf-8"%string :: ["utf-8-sig"; "latin-1"; "cp1252"; "ascii"]%string
   /\ text_reader.path_exists
        (text_reader.mkDiskFile true true (Some 5)
           (fun _ => text_reader.ReadOSError "denied") (inr "denied"%string)) = true
   /\ text_reader.path_is_file
        (text_reader.mkDiskFile true true (Some 5)
           (fun _ => text_reader.ReadOSError "denied") (inr "denied"%string)) = true
   /\ text_reader.max_file_size (text_reader.mkTextReader None) = None
   /\ Forall (fun e => text_reader.read_text
                         (text_reader.mkDiskFile true true (Some 5)
                            (fun _ => text_reader.ReadOSError "denied")
                            (inr "denied"%string)) e
                       = text_reader.ReadUnicodeError) []
   /\ text_reader.read_text
        (text_reader.mkDiskFile true true (Some 5)
           (fun _ => text_reader.ReadOSError "denied") (inr "denied"%string)) "utf-8"
      = text_reader.ReadOSError "denied")
  /\ text_reader.read_file (text_reader.mkTextReader None)
       (text_reader.mkDiskFile true true (Some 5)
          (fun _ => text_reader.ReadOSError "denied") (inr "denied"%string))
     = Some "[Error reading file: denied]"%string.
Proof.
  split; [repeat split; try reflexivity; constructor|].
  exact (read_file_os_error (text_reader.mkTextReader None)
           (text_reader.mkDiskFile true true (Some 5)
              (fun _ => text_reader.ReadOSError "denied") (inr "denied"%string))
           [] ["utf-8-sig"; "latin-1"; "cp1252"; "ascii"]%string "utf-8" "denied"
           eq_refl eq_refl eq_refl eq_refl (Forall_nil_2 _) eq_refl).
Defined.

(** ** What [convert] hands to the generator *)

Lemma fold_add_file (f : path -> FileContent) (l : list path) (g : MarkdownGenerator) :
  _files (fold_left (fun g0 p => add_file g0 (f p)) l g) = _files g ++ map f l
  /\ _tree (fold_left (fun g0 p => add_file g0 (f p)) l g) = _tree g.
Proof.
  revert g. induction l as [|p l IH]; intros g; simpl.
  - by rewrite app_nil_r.
  - destruct (IH (add_file g (f p))) as [-> ->]. simpl.
    by rewrite <- app_assoc.
Qed.

(** The document of [convert] has one file section for every file of
    [discover_files], in the same order and under its root-relative
    path, and its tree is the one of [generate_tree]. *)
Theorem convert_files_in_order (c : converter.GitToMarkdownConverter)
    (w : converter.world) :
  _files (converter.generator_of c w)
  = map (converter.process_file c w)
      (discover_files (converter.discovery_of (converter.config c))
         (converter.repo_root w))
  /\ map relative_path (_files (converter.generator_of c w))
     = map path_str
         (discover_files (converter.discovery_of (converter.config c))
            (converter.repo_root w))
  /\ _tree (converter.generator_of c w)
     = generate_tree (converter.discovery_of (converter.config c))
         (converter.max_tree_depth (converter.config c)) (converter.repo_root w).
Proof.
  unfold converter.generator_of.
  destruct (fold_add_file (converter.process_file c w)
              (discover_files (converter.discovery_of (converter.config c))
                 (converter.repo_root w))
              (set_tree
                 (mkMarkdownGenerator (converter.repo_name w)
                    (converter.include_tree (converter.config c))
                    (converter.include_toc (converter.config c))
                    (converter.max_tree_depth (converter.config c)) [] EmptyString)
                 (generate_tree (converter.discovery_of (converter.config c))
                    (converter.max_tree_depth (converter.config c))
                    (converter.repo_root w)))) as [Hfiles Htree].
  split; [exact Hfiles|]. split; [|exact Htree].
  rewrite Hfiles. simpl. rewrite map_map. apply map_ext. intros p.
  unfold converter.process_file.
  by destruct (String.eqb _ _ && converter._pdf_reader c).
Qed.

(** ** Extensions *)

Section suffix_facts.

#[local] Arguments String.append !_ _ /.

Lemma rfind_absent (c : ascii) (s : string) :
  PyStr.contains_char c s = false -> PyStr.rfind c s = None.
Proof.
  induction s as [|a s IH]; [done|]. simpl. intros H.
  apply orb_false_iff in H as [Ha Hs]. by rewrite (IH Hs), Ha.
Qed.

Lemma rfind_last (c : ascii) (base ext : string) :
  PyStr.contains_char c ext = false ->
  PyStr.rfind c (base +:+ String c ext) = Some (String.length base).
Proof.
  intros Hext. induction base as [|a base IH]; simpl.
  - by rewrite (rfind_absent c ext Hext), Ascii.eqb_refl.
  - by rewrite IH.
Qed.

Lemma drop_length_app (base rest : string) :
  PyStr.drop (String.length base) (base +:+ rest) = rest.
Proof. induction base as [|a base IH]; simpl; [by destruct rest|done]. Qed.

(** The suffix of [base.ext] is [.ext], for a name [base] that is not
    empty and an extension without dot that is not empty. *)
Lemma name_suffix_ext (base ext : string) :
  base <> EmptyString -> ext <> EmptyString ->
  PyStr.contains_char "." ext = false ->
  name_suffix (base +:+ "." +:+ ext) = "." +:+ ext.
Proof.
  intros Hbase Hext Hdot. unfold name_suffix.
  change (base +:+ "." +:+ ext) with (base +:+ String "." ext).
  rewrite (rfind_last "." base ext Hdot), drop_length_app.
  assert ((0 <? String.length base)%nat = true) as ->
    by (apply Nat.ltb_lt; destruct base; [done|simpl; lia]).
  assert ((String.length base <? String.length (base +:+ String "." ext) - 1)%nat = true)
    as ->; [|done].
  apply Nat.ltb_lt. rewrite string_length_app. simpl.
  destruct ext; [done|simpl; lia].
Qed.

(** A name whose only dot is the first character has no suffix. *)
Lemma name_suffix_hidden (s : string) :
  PyStr.contains_char "." s = false -> name_suffix ("." +:+ s) = EmptyString.
Proof.
  intros Hdot. unfold name_suffix. simpl.
  by rewrite (rfind_absent "." s Hdot).
Qed.

Lemma startswith_first (c d : ascii) (s : string) :
  PyStr.startswith (String c s) (String d EmptyString) = Ascii.eqb c d.
Proof.
  unfold PyStr.startswith. cbn [String.prefix].
  destruct (ascii_dec d c) as [<-|Hne].
  - rewrite Ascii.eqb_refl. by destruct s.
  - symmetry. apply Ascii.eqb_neq. congruence.
Qed.

Lemma path_name_snoc (dir : path) (n : string) : path_name (dir ++ [n]) = n.
Proof. unfold path_name. apply last_last. Qed.

Lemma lower_char_idemp (c : ascii) :
  PyStr.lower_char (PyStr.lower_char c) = PyStr.lower_char c.
Proof. destruct c as [[] [] [] [] [] [] [] []]; reflexivity. Qed.

Lemma lower_idemp (s : string) : PyStr.lower (PyStr.lower s) = PyStr.lower s.
Proof.
  induction s as [|c s IH]; [done|]. simpl. by rewrite lower_char_idemp, IH.
Qed.

End suffix_facts.

(** A hidden file, whose name has no dot but the first character, has no
    suffix for [pathlib]: it is included by its exact name only (or when
    the empty string is among the extensions), even when its name is
    listed as an extension, like ".env". *)
Theorem hidden_file_needs_exact_name (fd : FileDiscovery) (dir : path) (s : string) :
  PyStr.contains_char "." s = false ->
  is_text_file fd (dir ++ ["." +:+ s])
  = bool_decide (("." +:+ s) ∈ include_filenames fd)
    || bool_decide (EmptyString ∈ text_extensions fd).
Proof.
  intros Hdot. unfold is_text_file, path_suffix.
  rewrite path_name_snoc, (name_suffix_hidden s Hdot). simpl.
  destruct (bool_decide (("." +:+ s) ∈ include_filenames fd)); [done|].
  by rewrite orb_false_r.
Qed.

Lemma hidden_file_needs_exact_name_witness :
  PyStr.contains_char "." "env" = false
  /\ is_text_file default_discovery (["src"] ++ ["." +:+ "env"]) = false.
Proof.
  assert (PyStr.contains_char "." "env" = false) as H by reflexivity.
  split; [exact H|].
  rewrite (hidden_file_needs_exact_name default_discovery ["src"] "env" H).
  vm_compute. reflexivity.
Defined.

(** An entry of the extension set that is not in lower case selects no
    file: the suffix is lower-cased before it is looked up. *)
Theorem mixed_case_extension_is_dead (fd : FileDiscovery) (ext : string) (p : path) :
  PyStr.lower ext <> ext ->
  is_text_file (without_extension fd ext) p = is_text_file fd p.
Proof.
  intros Hext. unfold is_text_file, without_extension.
  cbn [text_extensions include_filenames].
  assert (bool_decide (PyStr.lower (path_suffix p) ∈ text_extensions fd ∖ {[ext]})
          = bool_decide (PyStr.lower (path_suffix p) ∈ text_extensions fd)) as ->;
    [|done].
  apply bool_decide_ext. rewrite elem_of_difference, not_elem_of_singleton.
  split; [by intros [? _]|]. intros Hin. split; [done|].
  intros Heq. apply Hext. by rewrite <- Heq, lower_idemp.
Qed.

Lemma mixed_case_extension_is_dead_witness :
  PyStr.lower ".R" <> ".R"%string
  /\ is_text_file (without_extension default_discovery ".R") ["stats.R"]
     = is_text_file default_discovery ["stats.R"].
Proof.
  assert (PyStr.lower ".R" <> ".R"%string) as H by (vm_compute; discriminate).
  split; [exact H|].
  exact (mixed_case_extension_is_dead default_discovery ".R" ["stats.R"] H).
Defined.

(** An extension given on the command line without its dot selects the
    files with that extension: [main] adds the dot, and the discovery
    adds the set to the default extensions.  The file name is a base
    that does not start with a dot, a dot, and the extension. *)
Theorem command_line_extension_selects (cfg : converter.ConverterConfig)
    (exts : list string) (ext base : string) (dir : path) :
  converter.custom_extensions cfg = main.custom_extensions_of (Some exts) ->
  ext ∈ exts ->
  ext <> EmptyString -> PyStr.contains_char "." ext = false ->
  PyStr.lower ext = ext ->
  base <> EmptyString -> PyStr.startswith base "." = false ->
  is_text_file (converter.discovery_of cfg) (dir ++ [base +:+ "." +:+ ext]) = true.
Proof.
  intros Hcfg Hin Hne Hdot Hlower Hbase _.
  unfold is_text_file, path_suffix.
  rewrite path_name_snoc, (name_suffix_ext base ext Hbase Hne Hdot).
  assert (PyStr.lower ("." +:+ ext) = "." +:+ ext) as ->
    by (change ("." +:+ ext) with (String "." ext); simpl; by rewrite Hlower).
  assert (("." +:+ ext) ∈ text_extensions (converter.discovery_of cfg)) as Hext.
  { unfold converter.discovery_of, FileDiscovery_init.
    cbn [text_extensions or_default]. rewrite Hcfg.
    destruct exts as [|e exts]; [by apply elem_of_nil in Hin|].
    cbn [main.custom_extensions_of].
    assert (("." +:+ ext) ∈ (list_to_set (map main.with_dot (e :: exts)) : gset string))
      as Hset.
    { apply elem_of_list_to_set, list_elem_of_fmap. exists ext. split; [|done].
      unfold main.with_dot. destruct ext as [|c ext]; [done|].
      simpl in Hdot. apply orb_false_iff in Hdot as [Hc _].
      by rewrite startswith_first, Hc. }
    destruct (decide (_ = ∅)) as [Hempty|_].
    { exfalso. apply (not_elem_of_empty (C:=gset string) ("." +:+ ext)).
      rewrite <- Hempty. exact Hset. }
    destruct (converter.include_pdf cfg); [apply elem_of_union_l|];
      apply elem_of_union_r, Hset. }
  rewrite (bool_decide_eq_true_2 _ Hext). by rewrite orb_true_r.
Qed.

Lemma command_line_extension_selects_witness :
  (converter.custom_extensions
     (converter.mkConverterConfig false true false None None
        (main.custom_extensions_of (Some ["foo"; ".bar"]%string)) None false 100000)
   = main.custom_extensions_of (Some ["foo"; ".bar"]%string)
   /\ "foo"%string ∈ ["foo"; ".bar"]%string
   /\ "foo"%string <> EmptyString
   /\ PyStr.contains_char "." "foo" = false
   /\ PyStr.lower "foo" = "foo"%string
   /\ "x"%string <> EmptyString
   /\ PyStr.startswith "x" "." = false)
  /\ is_text_file
       (converter.discovery_of
          (converter.mkConverterConfig false true false None None
             (main.custom_extensions_of (Some ["foo"; ".bar"]%string)) None false 100000))
       (["src"] ++ ["x" +:+ "." +:+ "foo"]) = true.
Proof.
  assert ("foo"%string ∈ ["foo"; ".bar"]%string) as Hin by compute_done.
  assert ("foo"%string <> EmptyString) as Hne by discriminate.
  assert ("x"%string <> EmptyString) as Hbase by discriminate.
  split; [repeat split; try reflexivity; assumption|].
  exact (command_line_extension_selects
           (converter.mkConverterConfig false true false None None
              (main.custom_extensions_of (Some ["foo"; ".bar"]%string)) None false 100000)
           ["foo"; ".bar"]%string "foo" "x" ["src"]
           eq_refl Hin Hne eq_refl eq_refl Hbase eq_refl).
Defined.
